(** * webapi-i-guided: the hubs HTTP API of [index.js]

    A shallow embedding of the Express application defined in [index.js]:
    the seven registered routes, their handlers, the promise chains
    [db.method(...).then(...).catch(...)] and the [res] object the handlers
    write to.  The database module [./data/hubs-model.js] is an external
    collaborator; it appears here as an oracle that maps each call to the
    way the returned promise settles. *)

From Stdlib Require Import ZArith String List Ascii Bool Lia.
From Stdlib Require Import Floats.SpecFloat.
From stdpp Require Import gmap strings.
Import ListNotations.

Local Open Scope string_scope.
Local Open Scope Z_scope.

#[local] Set Warnings "-register-all".

(** ** JavaScript values *)

(** The values that travel through the handlers: what the collaborator
    resolves or rejects with, what [express.json()] leaves in [req.body] and
    what is handed to [res.json].  Numbers are IEEE-754 doubles; an object is
    its list of own enumerable properties in insertion order. *)
Inductive JSValue : Type :=
  | JUndefined
  | JNull
  | JBool (b : bool)
  | JNumber (x : spec_float)
  | JString (s : string)
  | JArray (elems : list JSValue)
  | JObject (props : list (string * JSValue)).

(** [ToBoolean]: the test performed by [if (hub)], [if (updated)] and
    [if (deleted)].  The falsy values are [undefined], [null], [false],
    [+0], [-0], [NaN] and the empty string. *)
Definition truthy (v : JSValue) : bool :=
  match v with
  | JUndefined | JNull => false
  | JBool b => b
  | JNumber (S754_zero _) | JNumber S754_nan => false
  | JNumber _ => true
  | JString s => negb (String.eqb s "")
  | JArray _ | JObject _ => true
  end.

(** Property read [o.k] on an object value (first binding wins, as the
    object literals of the handlers never repeat a key). *)
Fixpoint assoc (k : string) (props : list (string * JSValue)) : option JSValue :=
  match props with
  | [] => None
  | (k', v) :: rest => if String.eqb k k' then Some v else assoc k rest
  end.

Definition get_field (k : string) (v : JSValue) : option JSValue :=
  match v with
  | JObject props => assoc k props
  | _ => None
  end.

(** ** The response object [res] *)

(** What a response carries.  [JsonBody v] stands for the JSON text of [v]:
    the handlers hand the value to [res.json] and the framework serialises
    it. *)
Inductive Body : Type :=
  | JsonBody (v : JSValue)   (* written by [res.json(v)] *)
  | TextBody (s : string)    (* written by [res.send(s)] with a string *)
  | EmptyBody.               (* written by [res.end()] *)

Record Response : Type := mkResponse { status : Z; body : Body }.

(** [statusCode] is the code that the next write will carry (200 until
    [res.status] changes it); [sent] lists, in order, the responses written
    so far through [json], [send] or [end]. *)
Record Res : Type := mkRes { statusCode : Z; sent : list Response }.

Definition fresh_res : Res := {| statusCode := 200; sent := [] |}.

Definition res_status (code : Z) (r : Res) : Res :=
  {| statusCode := code; sent := sent r |}.

Definition res_write (b : Body) (r : Res) : Res :=
  {| statusCode := statusCode r;
     sent := sent r ++ [ {| status := statusCode r; body := b |} ] |}.

Definition res_json (v : JSValue) : Res -> Res := res_write (JsonBody v).
Definition res_send (s : string) : Res -> Res := res_write (TextBody s).
Definition res_end : Res -> Res := res_write EmptyBody.

(** ** Promises *)

(** How a promise ends up: fulfilled with a value, rejected with a reason,
    or never settled. *)
Inductive Promise : Type :=
  | Fulfilled (v : JSValue)
  | Rejected (e : JSValue)
  | Pending.

Definition settled (p : Promise) : bool :=
  match p with
  | Pending => false
  | _ => true
  end.

(** A callback either returns or throws. *)
Inductive Completion : Type :=
  | Normal
  | Throw (e : JSValue).

Definition Callback : Type := JSValue -> Res -> Res * Completion.

Definition promise_of (c : Completion) : Promise :=
  match c with
  | Normal => Fulfilled JUndefined
  | Throw e => Rejected e
  end.

(** [p.then(f)]: [f] runs on fulfilment only; the derived promise is
    rejected when [p] is, or when [f] throws. *)
Definition then_ (p : Promise) (f : Callback) (r : Res) : Res * Promise :=
  match p with
  | Fulfilled v => let (r', c) := f v r in (r', promise_of c)
  | Rejected e => (r, Rejected e)
  | Pending => (r, Pending)
  end.

(** [p.catch(g)]: [g] runs on rejection only. *)
Definition catch_ (p : Promise) (g : Callback) (r : Res) : Res * Promise :=
  match p with
  | Fulfilled v => (r, Fulfilled v)
  | Rejected e => let (r', c) := g e r in (r', promise_of c)
  | Pending => (r, Pending)
  end.

(** [p.then(f).catch(g)], the only chain shape used in [index.js]. *)
Definition then_catch (p : Promise) (f g : Callback) (r : Res) : Res * Promise :=
  let (r1, q) := then_ p f r in catch_ q g r1.

(** ** The database collaborator *)

(** The five calls the handlers make on [db]. *)
Inductive DbCall : Type :=
  | find
  | findById (id : JSValue)
  | add (hub : JSValue)
  | update (id : JSValue) (changes : JSValue)
  | remove (id : JSValue).

(** ** Requests as the handlers see them *)

Record Req : Type := mkReq {
  params : gmap string string;   (* [req.params] *)
  body_of : JSValue              (* [req.body] *)
}.

(** [req.params.k]: a string when the route bound [k], [undefined]
    otherwise. *)
Definition param (k : string) (req : Req) : JSValue :=
  match params req !! k with
  | Some s => JString s
  | None => JUndefined
  end.

(** What persists between requests: the calls made on [db] so far and the
    number of times the system clock has been read. *)
Record World : Type := mkWorld { calls : list DbCall; ticks : nat }.

Definition init_world : World := {| calls := []; ticks := 0 |}.

Definition log_call (c : DbCall) (w : World) : World :=
  {| calls := calls w ++ [c]; ticks := ticks w |}.

Definition Handler : Type := Req -> Res -> World -> Res * World.

(** ** Dates *)

(** [new Date().toISOString()], after ECMA-262, section "Date Objects".
    A time value is a number of milliseconds since 1970-01-01T00:00:00Z;
    the time value of [new Date()] is the reading of the system clock. *)
Module Date.

Definition msPerDay : Z := 86400000.
Definition msPerHour : Z := 3600000.
Definition msPerMinute : Z := 60000.
Definition msPerSecond : Z := 1000.

(** The range of time values: 100,000,000 days either side of the epoch. *)
Definition maxTime : Z := 8640000000000000.
Definition is_time_value (t : Z) : Prop := - maxTime <= t <= maxTime.

Definition Day (t : Z) : Z := t / msPerDay.
Definition TimeWithinDay (t : Z) : Z := t mod msPerDay.

Definition is_leap (y : Z) : bool :=
  if negb (y mod 4 =? 0) then false
  else if negb (y mod 100 =? 0) then true
  else if negb (y mod 400 =? 0) then false
  else true.

Definition DaysInYear (y : Z) : Z := if is_leap y then 366 else 365.

Definition DayFromYear (y : Z) : Z :=
  365 * (y - 1970) + (y - 1969) / 4 - (y - 1901) / 100 + (y - 1601) / 400.

Definition TimeFromYear (y : Z) : Z := msPerDay * DayFromYear y.

(** [YearFromTime(t)] is specified as the largest [y] with
    [TimeFromYear(y) <= t].  It is computed from the mean length of a
    Gregorian year (146097 days per 400 years), then moved by at most one
    year to the one that contains the day. *)
Definition YearFromDay (d : Z) : Z :=
  let y := 1970 + (400 * d) / 146097 in
  if d <? DayFromYear y then y - 1
  else if DayFromYear (y + 1) <=? d then y + 1
  else y.

Definition YearFromTime (t : Z) : Z := YearFromDay (Day t).

Definition InLeapYear (t : Z) : Z :=
  if is_leap (YearFromTime t) then 1 else 0.

Definition DayWithinYear (t : Z) : Z :=
  Day t - DayFromYear (YearFromTime t).

(** Month number, 0 for January to 11 for December, of day [d] of a year
    ([leap] is 1 in a leap year and 0 otherwise). *)
Definition month_of_day (d leap : Z) : Z :=
  if d <? 31 then 0
  else if d <? 59 + leap then 1
  else if d <? 90 + leap then 2
  else if d <? 120 + leap then 3
  else if d <? 151 + leap then 4
  else if d <? 181 + leap then 5
  else if d <? 212 + leap then 6
  else if d <? 243 + leap then 7
  else if d <? 273 + leap then 8
  else if d <? 304 + leap then 9
  else if d <? 334 + leap then 10
  else 11.

(** Number of the first day of month [m] within its year. *)
Definition month_start (m leap : Z) : Z :=
  if m =? 0 then 0
  else if m =? 1 then 31
  else if m =? 2 then 59 + leap
  else if m =? 3 then 90 + leap
  else if m =? 4 then 120 + leap
  else if m =? 5 then 151 + leap
  else if m =? 6 then 181 + leap
  else if m =? 7 then 212 + leap
  else if m =? 8 then 243 + leap
  else if m =? 9 then 273 + leap
  else if m =? 10 then 304 + leap
  else 334 + leap.

Definition MonthFromTime (t : Z) : Z :=
  month_of_day (DayWithinYear t) (InLeapYear t).

Definition DateFromTime (t : Z) : Z :=
  DayWithinYear t - month_start (MonthFromTime t) (InLeapYear t) + 1.

Definition HourFromTime (t : Z) : Z := (t / msPerHour) mod 24.
Definition MinFromTime (t : Z) : Z := (t / msPerMinute) mod 60.
Definition SecFromTime (t : Z) : Z := (t / msPerSecond) mod 60.
Definition msFromTime (t : Z) : Z := t mod msPerSecond.

(** Decimal rendering. *)
Definition digit_char (d : Z) : ascii :=
  ascii_of_nat (48 + Z.to_nat d).

(** [digits k v]: the [k] low-order decimal digits of [v], most
    significant first, zero-padded. *)
Fixpoint digits (k : nat) (v : Z) : string :=
  match k with
  | O => EmptyString
  | S k' => String (digit_char ((v / 10 ^ Z.of_nat k') mod 10)) (digits k' v)
  end.

(** Years 0 to 9999 are written with four digits, the others in the
    expanded form: a sign and six digits. *)
Definition year_string (y : Z) : string :=
  if (0 <=? y) && (y <=? 9999) then digits 4 y
  else if y <? 0 then "-" ++ digits 6 (- y)
  else "+" ++ digits 6 y.

(** [Date.prototype.toISOString]: [YYYY-MM-DDTHH:mm:ss.sssZ]. *)
Definition toISOString (t : Z) : string :=
  year_string (YearFromTime t) ++ "-" ++
  digits 2 (MonthFromTime t + 1) ++ "-" ++
  digits 2 (DateFromTime t) ++ "T" ++
  digits 2 (HourFromTime t) ++ ":" ++
  digits 2 (MinFromTime t) ++ ":" ++
  digits 2 (SecFromTime t) ++ "." ++
  digits 3 (msFromTime t) ++ "Z".

(** *** Reading a timestamp back

    [Date.parse] on the complete UTC form of the Date Time String Format,
    [YYYY-MM-DDTHH:mm:ss.sssZ] with a four-digit or an expanded year.  It
    answers [None] (for [NaN]) when the string is not of that form, names
    a day or an hour that does not exist, or falls outside the range of
    time values. *)

Definition digit_val (c : ascii) : option Z :=
  let n := Z.of_nat (nat_of_ascii c) in
  if (48 <=? n) && (n <=? 57) then Some (n - 48) else None.

Fixpoint read_digits (k : nat) (acc : Z) (s : string) : option (Z * string) :=
  match k with
  | O => Some (acc, s)
  | S k' =>
      match s with
      | String c rest =>
          match digit_val c with
          | Some d => read_digits k' (10 * acc + d) rest
          | None => None
          end
      | EmptyString => None
      end
  end.

Definition expect (c : ascii) (s : string) : option string :=
  match s with
  | String c' rest => if Ascii.eqb c c' then Some rest else None
  | EmptyString => None
  end.

(** A year: four digits, or a sign and six digits; [-000000] is not a
    year. *)
Definition read_year (s : string) : option (Z * string) :=
  match s with
  | String "+" rest => read_digits 6 0 rest
  | String "-" rest =>
      '(y, rest') ← read_digits 6 0 rest;
      if y =? 0 then None else Some (- y, rest')
  | _ => read_digits 4 0 s
  end.

(** Length of month [m] (0 for January). *)
Definition DaysInMonth (m leap : Z) : Z :=
  if m =? 1 then 28 + leap
  else if (m =? 3) || (m =? 5) || (m =? 8) || (m =? 10) then 30
  else 31.

Definition MakeTime (h mi sec ms : Z) : Z :=
  h * msPerHour + mi * msPerMinute + sec * msPerSecond + ms.

(** [MakeDay] for a month number within 0..11. *)
Definition MakeDay (y m dt : Z) : Z :=
  DayFromYear y + month_start m (if is_leap y then 1 else 0) + dt - 1.

Definition MakeDate (day time : Z) : Z := day * msPerDay + time.

Definition TimeClip (t : Z) : option Z :=
  if (- maxTime <=? t) && (t <=? maxTime) then Some t else None.

Definition valid_fields (y mo d h mi sec ms : Z) : bool :=
  (1 <=? mo) && (mo <=? 12) &&
  (1 <=? d) && (d <=? DaysInMonth (mo - 1) (if is_leap y then 1 else 0)) &&
  ((h <=? 23) && (mi <=? 59) && (sec <=? 59)
   || (h =? 24) && (mi =? 0) && (sec =? 0) && (ms =? 0)).

Definition parse (s : string) : option Z :=
  '(y, s) ← read_year s;
  s ← expect "-" s;
  '(mo, s) ← read_digits 2 0 s;
  s ← expect "-" s;
  '(d, s) ← read_digits 2 0 s;
  s ← expect "T" s;
  '(h, s) ← read_digits 2 0 s;
  s ← expect ":" s;
  '(mi, s) ← read_digits 2 0 s;
  s ← expect ":" s;
  '(sec, s) ← read_digits 2 0 s;
  s ← expect "." s;
  '(ms, s) ← read_digits 3 0 s;
  s ← expect "Z" s;
  match s with
  | EmptyString =>
      if valid_fields y mo d h mi sec ms
      then TimeClip (MakeDate (MakeDay y (mo - 1) d) (MakeTime h mi sec ms))
      else None
  | _ => None
  end.

End Date.

(** ** Routing *)

Inductive Method : Type := GET | POST | PUT | DELETE | PATCH.

Definition Method_eqb (a b : Method) : bool :=
  match a, b with
  | GET, GET | POST, POST | PUT, PUT | DELETE, DELETE | PATCH, PATCH => true
  | _, _ => false
  end.

(** A segment of a route path: a literal, or a named parameter [:name]. *)
Inductive Seg : Type :=
  | Lit (s : string)
  | Par (name : string).

(** The non-empty pieces of a path between slashes. *)
Fixpoint split_slash (cur : string) (s : string) : list string :=
  match s with
  | EmptyString => if String.eqb cur "" then [] else [cur]
  | String c rest =>
      if Ascii.eqb c "/"
      then (if String.eqb cur "" then [] else [cur]) ++ split_slash "" rest
      else split_slash (cur ++ String c "") rest
  end.

Definition seg_of (s : string) : Seg :=
  match s with
  | String ":" name => Par name
  | _ => Lit s
  end.

Definition path_pattern (p : string) : list Seg :=
  map seg_of (split_slash "" p).

(** Matching a route path against the segments of a request path, literal
    segments by equality; the parameters are collected into [req.params].
    This is the framework's matcher on paths written as the routes spell
    them, which is how the requests of the statements below are written;
    what else the framework lets through to a handler (other letter case,
    a [HEAD] for a [GET] route) is not described here. *)
Fixpoint match_path (pat : list Seg) (path : list string)
  : option (gmap string string) :=
  match pat, path with
  | [], [] => Some ∅
  | Lit l :: pat', seg :: path' =>
      if String.eqb l seg then match_path pat' path' else None
  | Par x :: pat', seg :: path' =>
      ps ← match_path pat' path'; Some (<[x := seg]> ps)
  | _, _ => None
  end.

Record Route : Type := mkRoute {
  route_method : Method;
  route_path : list Seg;
  route_handler : Handler
}.

(** An incoming request: method, the segments of its path [/s1/.../sn] and
    what the body parser [express.json()] put in [req.body]. *)
Record HttpRequest : Type := mkHttpRequest {
  method : Method;
  path : list string;
  payload : JSValue
}.

(** The first registered route that matches wins. *)
Fixpoint lookup_route (routes : list Route) (rq : HttpRequest)
  : option (Route * gmap string string) :=
  match routes with
  | [] => None
  | rt :: rest =>
      if Method_eqb (route_method rt) (method rq) then
        match match_path (route_path rt) (path rq) with
        | Some ps => Some (rt, ps)
        | None => lookup_route rest rq
        end
      else lookup_route rest rq
  end.

(** ** The application *)

Section Server.

(** [db before c] tells how the promise returned by the call [c] settles,
    [before] being the calls made on the collaborator so far. *)
Variable db : list DbCall -> DbCall -> Promise.

(** [clock n] is the time value of the system clock when it is read for
    the [n]-th time. *)
Variable clock : nat -> Z.

Definition db_call (c : DbCall) (w : World) : Promise * World :=
  (db (calls w) c, log_call c w).

Definition new_Date (w : World) : Z * World :=
  (clock (ticks w), {| calls := calls w; ticks := S (ticks w) |}).

(** [server.get('/', ...)] *)
Definition get_root : Handler := fun req res w =>
  (res_send "hello world from express!!" res, w).

(** [server.get('/now', ...)] *)
Definition get_now : Handler := fun req res w =>
  let (t, w1) := new_Date w in
  let now := Date.toISOString t in
  (res_send now res, w1).

(** [server.get('/hubs', ...)] *)
Definition get_hubs : Handler := fun req res w =>
  let (p, w1) := db_call find w in
  let (res1, _) :=
    then_catch p
      (fun hubs r => (res_json hubs (res_status 200 r), Normal))
      (fun err r =>
         (res_json (JObject [("sucess", JBool false); ("err", err)])
                   (res_status 500 r), Normal))
      res in
  (res1, w1).

(** [server.get('/hubs/:id', ...)] *)
Definition get_hub_by_id : Handler := fun req res w =>
  let id := param "id" req in
  let (p, w1) := db_call (findById id) w in
  let (res1, _) :=
    then_catch p
      (fun hub r =>
         if truthy hub then (res_json hub (res_status 200 r), Normal)
         else
           (res_json
              (JObject [("success", JBool false);
                        ("message",
                         JString "I cannot find the hub you are looking for.")])
              (res_status 404 r), Normal))
      (fun err r =>
         (res_json (JObject [("success", JBool false); ("err", err)])
                   (res_status 500 r), Normal))
      res in
  (res1, w1).

(** [server.post('/hubs', ...)] *)
Definition post_hubs : Handler := fun req res w =>
  let hubInfo := body_of req in
  let (p, w1) := db_call (add hubInfo) w in
  let (res1, _) :=
    then_catch p
      (fun hub r =>
         (res_json (JObject [("sucess", JBool true); ("hub", hub)])
                   (res_status 201 r), Normal))
      (fun err r =>
         (res_json (JObject [("sucess", JBool false); ("err", err)])
                   (res_status 500 r), Normal))
      res in
  (res1, w1).

(** [server.put('/hubs/:id', ...)] *)
Definition put_hub : Handler := fun req res w =>
  let id := param "id" req in
  let hubInfo := body_of req in
  let (p, w1) := db_call (update id hubInfo) w in
  let (res1, _) :=
    then_catch p
      (fun updated r =>
         if truthy updated then
           (res_json (JObject [("success", JBool true); ("updated", updated)])
                     (res_status 200 r), Normal)
         else
           (res_json
              (JObject [("success", JBool false);
                        ("message",
                         JString "I cannot find the hub you are looking for")])
              (res_status 404 r), Normal))
      (fun err r =>
         (res_json (JObject [("success", JBool false); ("err", err)])
                   (res_status 500 r), Normal))
      res in
  (res1, w1).

(** [server.delete('/hubs/:id', ...)] *)
Definition delete_hub : Handler := fun req res w =>
  let id := param "id" req in
  let (p, w1) := db_call (remove id) w in
  let (res1, _) :=
    then_catch p
      (fun deleted r =>
         if truthy deleted then (res_end (res_status 204 r), Normal)
         else
           (res_json
              (JObject [("success", JBool false);
                        ("message",
                         JString "I cannot find the hub you are looking for")])
              (res_status 404 r), Normal))
      (fun err r =>
         (res_json (JObject [("success", JBool false); ("err", err)])
                   (res_status 500 r), Normal))
      res in
  (res1, w1).

Definition on (m : Method) (p : string) (h : Handler) : Route :=
  {| route_method := m; route_path := path_pattern p; route_handler := h |}.

(** The routes, in the order [index.js] registers them. *)
Definition server : list Route :=
  [ on GET "/" get_root;
    on GET "/now" get_now;
    on GET "/hubs" get_hubs;
    on GET "/hubs/:id" get_hub_by_id;
    on POST "/hubs" post_hubs;
    on PUT "/hubs/:id" put_hub;
    on DELETE "/hubs/:id" delete_hub ].

(** Serving one request to completion: the responses written by the
    matched handler and its promise callbacks on a fresh [res], or [None]
    when no route matches and the request is left to the framework. *)
Definition handle (rq : HttpRequest) (w : World)
  : option (list Response) * World :=
  match lookup_route server rq with
  | Some (rt, ps) =>
      let req := {| params := ps; body_of := payload rq |} in
      let (r, w') := route_handler rt req fresh_res w in
      (Some (sent r), w')
  | None => (None, w)
  end.


End Server.

(** ** The five hub routes *)

Inductive HubRoute : Type :=
  | GetHubs | GetHubById | PostHubs | PutHub | DeleteHub.

(** The requests each hub route serves: [id] is the second path segment of
    the id-addressed routes, [b] the parsed body. *)
Definition hub_request (rt : HubRoute) (id : string) (b : JSValue) : HttpRequest :=
  match rt with
  | GetHubs => {| method := GET; path := ["hubs"]; payload := b |}
  | GetHubById => {| method := GET; path := ["hubs"; id]; payload := b |}
  | PostHubs => {| method := POST; path := ["hubs"]; payload := b |}
  | PutHub => {| method := PUT; path := ["hubs"; id]; payload := b |}
  | DeleteHub => {| method := DELETE; path := ["hubs"; id]; payload := b |}
  end.

(** The collaborator call each hub route is specified to make. *)
Definition hub_call (rt : HubRoute) (id : string) (b : JSValue) : DbCall :=
  match rt with
  | GetHubs => find
  | GetHubById => findById (JString id)
  | PostHubs => add b
  | PutHub => update (JString id) b
  | DeleteHub => remove (JString id)
  end.

(** The envelopes the handlers build. *)
Definition not_found (msg : string) : Response :=
  {| status := 404;
     body := JsonBody (JObject [("success", JBool false); ("message", JString msg)]) |}.

Definition failure (flag : string) (e : JSValue) : Response :=
  {| status := 500;
     body := JsonBody (JObject [(flag, JBool false); ("err", e)]) |}.

(** ** Sample collaborators, clocks and values *)

Definition db_const (p : Promise) : list DbCall -> DbCall -> Promise :=
  fun _ _ => p.

Definition clock_zero : nat -> Z := fun _ => 0.

Definition hub_one : JSValue :=
  JObject [("id", JNumber (S754_finite false 1 0)); ("name", JString "lambda")].

Definition new_hub : JSValue := JObject [("name", JString "lambda")].

Definition boom : JSValue := JString "boom".

(** A clock that advances one millisecond per reading from
    2024-01-01T00:00:00Z and stops after a second. *)
Definition clock_forward : nat -> Z :=
  fun n => 1704067200000 + Z.min (Z.of_nat n) 1000.




(** ** Invoking the handlers *)

(** The seven handlers [index.js] registers. *)
Inductive Endpoint : Type :=
  | Greeting
  | Clock
  | Hub (rt : HubRoute).

Definition endpoint_handler
  (db : list DbCall -> DbCall -> Promise) (clock : nat -> Z)
  (ep : Endpoint) : Handler :=
  match ep with
  | Greeting => get_root
  | Clock => get_now clock
  | Hub GetHubs => get_hubs db
  | Hub GetHubById => get_hub_by_id db
  | Hub PostHubs => post_hubs db
  | Hub PutHub => put_hub db
  | Hub DeleteHub => delete_hub db
  end.

(** One run of a handler, on the request object it is given and a fresh
    [res]: what it writes, and the world it leaves. *)
Definition invoke
  (db : list DbCall -> DbCall -> Promise) (clock : nat -> Z)
  (ep : Endpoint) (req : Req) (w : World) : list Response * World :=
  let (r, w') := endpoint_handler db clock ep req fresh_res w in
  (sent r, w').

(** Runs of handlers one after the other. *)
Fixpoint invoke_all
  (db : list DbCall -> DbCall -> Promise) (clock : nat -> Z)
  (runs : list (Endpoint * Req)) (w : World)
  : list (list Response) * World :=
  match runs with
  | [] => ([], w)
  | (ep, req) :: rest =>
      let (r, w1) := invoke db clock ep req w in
      let (rs, w2) := invoke_all db clock rest w1 in
      (r :: rs, w2)
  end.

(** The collaborator call a run of a handler is expected to make. *)
Definition endpoint_calls (run : Endpoint * Req) : list DbCall :=
  let (ep, req) := run in
  match ep with
  | Greeting | Clock => []
  | Hub GetHubs => [find]
  | Hub GetHubById => [findById (param "id" req)]
  | Hub PostHubs => [add (body_of req)]
  | Hub PutHub => [update (param "id" req) (body_of req)]
  | Hub DeleteHub => [remove (param "id" req)]
  end.

Definition is_clock (run : Endpoint * Req) : bool :=
  match fst run with
  | Clock => true
  | _ => false
  end.


(** The status codes that occur in [index.js]. *)
Definition known_status (s : Z) : bool :=
  (s =? 200) || (s =? 201) || (s =? 204) || (s =? 404) || (s =? 500).

Definition id_addressed (rt : HubRoute) : bool :=
  match rt with
  | GetHubById | PutHub | DeleteHub => true
  | GetHubs | PostHubs => false
  end.

(** The first millisecond of the year 0000 and of the year 10000: between
    them a timestamp has a four-digit year. *)
Definition year0 : Z := -62167219200000.
Definition year10000 : Z := 253402300800000.

(** Comparing two time values field by field, most significant first:
    year, month, day, hour, minute, second, millisecond. *)
Definition lex (c rest : comparison) : comparison :=
  match c with Eq => rest | _ => c end.

Definition fields_compare (t1 t2 : Z) : comparison :=
  lex (Date.YearFromTime t1 ?= Date.YearFromTime t2)
  (lex (Date.MonthFromTime t1 + 1 ?= Date.MonthFromTime t2 + 1)
  (lex (Date.DateFromTime t1 ?= Date.DateFromTime t2)
  (lex (Date.HourFromTime t1 ?= Date.HourFromTime t2)
  (lex (Date.MinFromTime t1 ?= Date.MinFromTime t2)
  (lex (Date.SecFromTime t1 ?= Date.SecFromTime t2)
       (Date.msFromTime t1 ?= Date.msFromTime t2)))))).

(** * Properties *)

(** ** Dates: the calendar arithmetic and the round trip through text *)

Module DateFacts.
Import Date.

(** A year is 365 or 366 days long. *)
Lemma DayFromYear_step y :
  DayFromYear (y + 1) - DayFromYear y = DaysInYear y.
Proof.
  unfold DayFromYear, DaysInYear, is_leap.
  repeat match goal with
         | |- context [?a =? ?b] => destruct (Z.eqb_spec a b); cbn [negb]
         end; Z.div_mod_to_equations; lia.
Qed.

(** The computed year is the one that contains the day. *)
Lemma YearFromDay_spec d :
  DayFromYear (YearFromDay d) <= d < DayFromYear (YearFromDay d + 1).
Proof.
  unfold YearFromDay.
  set (y := 1970 + 400 * d / 146097).
  assert (Hlo : DayFromYear (y - 1) <= d) by (unfold DayFromYear, y; Z.div_mod_to_equations; lia).
  assert (Hhi : d < DayFromYear (y + 2)) by (unfold DayFromYear, y; Z.div_mod_to_equations; lia).
  destruct (Z.ltb_spec d (DayFromYear y)).
  - replace (y - 1 + 1) with y by lia. lia.
  - destruct (Z.leb_spec (DayFromYear (y + 1)) d).
    + replace (y + 1 + 1) with (y + 2) by lia. lia.
    + lia.
Qed.

Lemma DayFromYear_mono y1 y2 : y1 <= y2 -> DayFromYear y1 <= DayFromYear y2.
Proof. unfold DayFromYear. intros. Z.div_mod_to_equations; lia. Qed.

(** [YearFromTime] meets its specification: the largest year that starts
    no later than [t]. *)
Lemma YearFromTime_largest t :
  TimeFromYear (YearFromTime t) <= t /\
  forall y, TimeFromYear y <= t -> y <= YearFromTime t.
Proof.
  unfold TimeFromYear, YearFromTime.
  pose proof (YearFromDay_spec (Day t)) as [Hlo Hhi].
  assert (Hd : msPerDay * Day t <= t < msPerDay * (Day t + 1))
    by (unfold Day, msPerDay; Z.div_mod_to_equations; lia).
  split.
  - unfold msPerDay in *. lia.
  - intros y Hy.
    destruct (Z.le_gt_cases y (YearFromDay (Day t))) as [|Hgt]; [assumption|].
    pose proof (DayFromYear_mono (YearFromDay (Day t) + 1) y ltac:(lia)).
    unfold msPerDay in *. lia.
Qed.

Lemma DayWithinYear_range t :
  0 <= DayWithinYear t < 365 + InLeapYear t.
Proof.
  unfold DayWithinYear, InLeapYear, YearFromTime.
  pose proof (YearFromDay_spec (Day t)) as [Hlo Hhi].
  pose proof (DayFromYear_step (YearFromDay (Day t))) as Hstep.
  unfold DaysInYear in Hstep.
  destruct (is_leap (YearFromDay (Day t))); lia.
Qed.

Lemma InLeapYear_01 t : InLeapYear t = 0 \/ InLeapYear t = 1.
Proof. unfold InLeapYear. destruct (is_leap _); auto. Qed.

Lemma month_of_day_spec d leap :
  (leap = 0 \/ leap = 1) -> 0 <= d < 365 + leap ->
  let m := month_of_day d leap in
  0 <= m <= 11 /\
  month_start m leap <= d < month_start m leap + DaysInMonth m leap.
Proof.
  intros Hleap Hd. unfold month_of_day.
  repeat match goal with
         | |- context [?a <? ?b] => destruct (Z.ltb_spec a b)
         end; cbn; lia.
Qed.

Lemma time_fields t :
  MakeTime (HourFromTime t) (MinFromTime t) (SecFromTime t) (msFromTime t)
  = TimeWithinDay t.
Proof.
  unfold MakeTime, HourFromTime, MinFromTime, SecFromTime, msFromTime,
    TimeWithinDay, msPerHour, msPerMinute, msPerSecond, msPerDay.
  Z.div_mod_to_equations; lia.
Qed.

Lemma time_fields_range t :
  0 <= HourFromTime t <= 23 /\ 0 <= MinFromTime t <= 59 /\
  0 <= SecFromTime t <= 59 /\ 0 <= msFromTime t <= 999.
Proof.
  unfold HourFromTime, MinFromTime, SecFromTime, msFromTime, msPerSecond.
  Z.div_mod_to_equations; lia.
Qed.

Lemma YearFromTime_range t :
  is_time_value t -> -271821 <= YearFromTime t <= 275760.
Proof.
  unfold is_time_value, maxTime, YearFromTime. intros Ht.
  pose proof (YearFromDay_spec (Day t)) as [Hlo Hhi].
  assert (Hd : -100000000 <= Day t <= 100000000)
    by (unfold Day, msPerDay; Z.div_mod_to_equations; lia).
  split.
  - destruct (Z.le_gt_cases (-271821) (YearFromDay (Day t))) as [|Hlt]; [assumption|].
    pose proof (DayFromYear_mono (YearFromDay (Day t) + 1) (-271821) ltac:(lia)) as Hm.
    assert (DayFromYear (-271821) <= -100000000) by (vm_compute; discriminate).
    lia.
  - destruct (Z.le_gt_cases (YearFromDay (Day t)) 275760) as [|Hgt]; [assumption|].
    pose proof (DayFromYear_mono 275761 (YearFromDay (Day t)) ltac:(lia)) as Hm.
    assert (100000000 < DayFromYear 275761) by (vm_compute; reflexivity).
    lia.
Qed.

Lemma digit_cases d :
  0 <= d <= 9 ->
  d = 0 \/ d = 1 \/ d = 2 \/ d = 3 \/ d = 4 \/ d = 5 \/ d = 6 \/ d = 7 \/ d = 8 \/ d = 9.
Proof. lia. Qed.

Lemma mod10_digit v : 0 <= v mod 10 <= 9.
Proof. pose proof (Z.mod_pos_bound v 10 ltac:(lia)). lia. Qed.

Lemma digit_val_char d : 0 <= d <= 9 -> digit_val (digit_char d) = Some d.
Proof.
  intros H. destruct (digit_cases d H) as [->|[->|[->|[->|[->|[->|[->|[->|[->| ->]]]]]]]]];
    reflexivity.
Qed.

(** Reading [k] digits back gives the number they render. *)
Lemma read_digits_digits k : forall acc v rest,
  read_digits k acc (digits k v ++ rest)
  = Some (acc * 10 ^ Z.of_nat k + v mod 10 ^ Z.of_nat k, rest).
Proof.
  induction k as [|k IH]; intros acc v rest.
  - cbn [digits read_digits]. change (10 ^ Z.of_nat 0) with 1.
    rewrite Z.mod_1_r. f_equal. f_equal. lia.
  - cbn [digits read_digits].
    change (String ?c ?s ++ rest) with (String c (s ++ rest)).
    cbn [read_digits].
    rewrite digit_val_char by apply mod10_digit.
    rewrite IH. f_equal. f_equal.
    rewrite Nat2Z.inj_succ, Z.pow_succ_r by lia.
    assert (Hp : 0 < 10 ^ Z.of_nat k) by (apply Z.pow_pos_nonneg; lia).
    rewrite (Z.mul_comm 10 (10 ^ Z.of_nat k)).
    rewrite (Z.rem_mul_r v (10 ^ Z.of_nat k) 10) by lia.
    lia.
Qed.

Lemma read_digits_small k v rest :
  0 <= v < 10 ^ Z.of_nat k ->
  read_digits k 0 (digits k v ++ rest) = Some (v, rest).
Proof.
  intros Hv. rewrite read_digits_digits, Z.mod_small by assumption.
  reflexivity.
Qed.

Lemma expect_here c rest : expect c (String c rest) = Some rest.
Proof. cbn. rewrite Ascii.eqb_refl. reflexivity. Qed.

Lemma read_year_digit d s :
  0 <= d <= 9 ->
  read_year (String (digit_char d) s) = read_digits 4 0 (String (digit_char d) s).
Proof.
  intros H. destruct (digit_cases d H) as [->|[->|[->|[->|[->|[->|[->|[->|[->| ->]]]]]]]]];
    reflexivity.
Qed.

Lemma read_year_string y rest :
  -999999 <= y <= 999999 ->
  read_year (year_string y ++ rest) = Some (y, rest).
Proof.
  intros Hy. unfold year_string.
  destruct (Z.leb_spec 0 y) as [H0|H0]; cbn [andb].
  - destruct (Z.leb_spec y 9999) as [H1|H1].
    + cbn [digits].
      change (String ?c ?s ++ rest) with (String c (s ++ rest)).
      rewrite read_year_digit by apply mod10_digit.
      apply (read_digits_small 4 y rest). cbn. lia.
    + destruct (Z.ltb_spec y 0); [lia|].
      change (("+" ++ digits 6 y) ++ rest) with (String "+" (digits 6 y ++ rest)).
      cbn [read_year].
      apply (read_digits_small 6 y rest). cbn. lia.
  - destruct (Z.ltb_spec y 0); [|lia].
    change (("-" ++ digits 6 (- y)) ++ rest)
      with (String "-" (digits 6 (- y) ++ rest)).
    cbn [read_year].
    rewrite (read_digits_small 6 (- y) rest) by (cbn; lia).
    cbn. destruct (Z.eqb_spec (- y) 0); [lia|].
    f_equal. f_equal. lia.
Qed.

Lemma expect_app c rest : expect c (String c "" ++ rest) = Some rest.
Proof. apply expect_here. Qed.

Lemma date_fields t :
  let leap := if is_leap (YearFromTime t) then 1 else 0 in
  1 <= MonthFromTime t + 1 <= 12 /\
  1 <= DateFromTime t <= DaysInMonth (MonthFromTime t) leap /\
  MakeDay (YearFromTime t) (MonthFromTime t) (DateFromTime t) = Day t.
Proof.
  intros leap.
  pose proof (month_of_day_spec (DayWithinYear t) (InLeapYear t)
                (InLeapYear_01 t) (DayWithinYear_range t)) as [Hm Hd].
  fold (MonthFromTime t) in Hm, Hd.
  unfold MakeDay, DateFromTime. fold leap. fold (InLeapYear t) in leap.
  subst leap. unfold DayWithinYear in *. lia.
Qed.

Lemma DaysInMonth_le_31 m leap : leap = 0 \/ leap = 1 -> DaysInMonth m leap <= 31.
Proof.
  intros H. unfold DaysInMonth.
  destruct (m =? 1); [lia|].
  destruct ((m =? 3) || (m =? 5) || (m =? 8) || (m =? 10)); lia.
Qed.

Lemma TimeClip_time_value t : is_time_value t -> TimeClip t = Some t.
Proof.
  unfold is_time_value, TimeClip. intros [Hlo Hhi].
  destruct (Z.leb_spec (- maxTime) t); [|lia].
  destruct (Z.leb_spec t maxTime); [|lia]. reflexivity.
Qed.

(** Every timestamp [toISOString] writes is read back by [parse] as the
    time value it was written from. *)
Theorem parse_toISOString t :
  is_time_value t -> parse (toISOString t) = Some t.
Proof.
  intros Ht.
  pose proof (YearFromTime_range t Ht) as Hy.
  pose proof (date_fields t) as (Hmo & Hdt & Hday).
  pose proof (time_fields_range t) as (Hh & Hmi & Hs & Hms).
  pose proof (DaysInMonth_le_31 (MonthFromTime t)
                (if is_leap (YearFromTime t) then 1 else 0)
                ltac:(destruct (is_leap _); auto)) as H31.
  unfold toISOString, parse.
  rewrite read_year_string by lia. cbn [mbind option_bind].
  rewrite expect_app. cbn [mbind option_bind].
  rewrite (read_digits_small 2) by (cbn; lia). cbn [mbind option_bind].
  rewrite expect_app. cbn [mbind option_bind].
  rewrite (read_digits_small 2) by (cbn; lia). cbn [mbind option_bind].
  rewrite expect_app. cbn [mbind option_bind].
  rewrite (read_digits_small 2) by (cbn; lia). cbn [mbind option_bind].
  rewrite expect_app. cbn [mbind option_bind].
  rewrite (read_digits_small 2) by (cbn; lia). cbn [mbind option_bind].
  rewrite expect_app. cbn [mbind option_bind].
  rewrite (read_digits_small 2) by (cbn; lia). cbn [mbind option_bind].
  rewrite expect_app. cbn [mbind option_bind].
  rewrite (read_digits_small 3) by (cbn; lia). cbn [mbind option_bind].
  rewrite expect_here. cbn [mbind option_bind].
  replace (MonthFromTime t + 1 - 1) with (MonthFromTime t) by lia.
  assert (Hv : valid_fields (YearFromTime t) (MonthFromTime t + 1)
                 (DateFromTime t) (HourFromTime t) (MinFromTime t)
                 (SecFromTime t) (msFromTime t) = true).
  { unfold valid_fields.
    replace (MonthFromTime t + 1 - 1) with (MonthFromTime t) by lia.
    repeat (apply andb_true_intro; split); try (apply Z.leb_le; lia).
    apply orb_true_intro. left.
    repeat (apply andb_true_intro; split); apply Z.leb_le; lia. }
  rewrite Hv, Hday, time_fields.
  unfold MakeDate, Day, TimeWithinDay.
  replace (t / msPerDay * msPerDay + t mod msPerDay) with t
    by (unfold msPerDay; Z.div_mod_to_equations; lia).
  apply TimeClip_time_value, Ht.
Qed.

(** Timestamps are read back in the order of their time values. *)
Corollary parse_toISOString_mono t1 t2 u1 u2 :
  is_time_value t1 -> is_time_value t2 -> t1 <= t2 ->
  parse (toISOString t1) = Some u1 -> parse (toISOString t2) = Some u2 ->
  u1 <= u2.
Proof.
  intros H1 H2 Hle. rewrite !parse_toISOString by assumption.
  intros [= <-] [= <-]. exact Hle.
Qed.

End DateFacts.

Section Properties.

Variable db : list DbCall -> DbCall -> Promise.
Variable clock : nat -> Z.

Local Abbreviation serve := (handle db clock).
Local Abbreviation routes := (server db clock).

(** *** Which route serves which request *)

Lemma route_get_hubs b :
  lookup_route routes {| method := GET; path := ["hubs"]; payload := b |}
  = Some (on GET "/hubs" (get_hubs db), ∅).
Proof. reflexivity. Qed.

Lemma route_get_hub_by_id s b :
  lookup_route routes {| method := GET; path := ["hubs"; s]; payload := b |}
  = Some (on GET "/hubs/:id" (get_hub_by_id db), <["id" := s]> ∅).
Proof. reflexivity. Qed.

Lemma route_post_hubs b :
  lookup_route routes {| method := POST; path := ["hubs"]; payload := b |}
  = Some (on POST "/hubs" (post_hubs db), ∅).
Proof. reflexivity. Qed.

Lemma route_put_hub s b :
  lookup_route routes {| method := PUT; path := ["hubs"; s]; payload := b |}
  = Some (on PUT "/hubs/:id" (put_hub db), <["id" := s]> ∅).
Proof. reflexivity. Qed.

Lemma route_delete_hub s b :
  lookup_route routes {| method := DELETE; path := ["hubs"; s]; payload := b |}
  = Some (on DELETE "/hubs/:id" (delete_hub db), <["id" := s]> ∅).
Proof. reflexivity. Qed.

Lemma param_bound (k s : string) (ps : gmap string string) b :
  param k {| params := <[k := s]> ps; body_of := b |} = JString s.
Proof. unfold param; cbn. by rewrite lookup_insert_eq. Qed.

(** *** What each handler does, for every way the promise can settle *)

Lemma handle_get_hubs id b w :
  serve (hub_request GetHubs id b) w =
  (Some match db (calls w) find with
        | Fulfilled hubs => [ {| status := 200; body := JsonBody hubs |} ]
        | Rejected e => [ failure "sucess" e ]
        | Pending => []
        end,
   log_call find w).
Proof.
  unfold handle. cbn [hub_request]. rewrite route_get_hubs.
  cbn. unfold get_hubs, db_call.
  destruct (db (calls w) find); reflexivity.
Qed.

Lemma handle_get_hub_by_id s b w :
  serve (hub_request GetHubById s b) w =
  (Some match db (calls w) (findById (JString s)) with
        | Fulfilled hub =>
            if truthy hub then [ {| status := 200; body := JsonBody hub |} ]
            else [ not_found "I cannot find the hub you are looking for." ]
        | Rejected e => [ failure "success" e ]
        | Pending => []
        end,
   log_call (findById (JString s)) w).
Proof.
  unfold handle. cbn [hub_request]. rewrite route_get_hub_by_id.
  cbn [route_handler on payload]. unfold get_hub_by_id, db_call.
  rewrite param_bound.
  destruct (db (calls w) (findById (JString s))) as [hub|e|]; try reflexivity.
  cbv beta iota delta [then_catch then_ catch_]. destruct (truthy hub); reflexivity.
Qed.

Lemma handle_post_hubs id b w :
  serve (hub_request PostHubs id b) w =
  (Some match db (calls w) (add b) with
        | Fulfilled hub =>
            [ {| status := 201;
                 body := JsonBody (JObject [("sucess", JBool true); ("hub", hub)]) |} ]
        | Rejected e => [ failure "sucess" e ]
        | Pending => []
        end,
   log_call (add b) w).
Proof.
  unfold handle. cbn [hub_request]. rewrite route_post_hubs.
  cbn. unfold post_hubs, db_call. cbn.
  destruct (db (calls w) (add b)); reflexivity.
Qed.

Lemma handle_put_hub s b w :
  serve (hub_request PutHub s b) w =
  (Some match db (calls w) (update (JString s) b) with
        | Fulfilled updated =>
            if truthy updated then
              [ {| status := 200;
                   body := JsonBody (JObject [("success", JBool true);
                                              ("updated", updated)]) |} ]
            else [ not_found "I cannot find the hub you are looking for" ]
        | Rejected e => [ failure "success" e ]
        | Pending => []
        end,
   log_call (update (JString s) b) w).
Proof.
  unfold handle. cbn [hub_request]. rewrite route_put_hub.
  cbn [route_handler on payload]. unfold put_hub, db_call.
  rewrite param_bound. cbn [body_of].
  destruct (db (calls w) (update (JString s) b)) as [u|e|]; try reflexivity.
  cbv beta iota delta [then_catch then_ catch_]. destruct (truthy u); reflexivity.
Qed.

Lemma handle_delete_hub s b w :
  serve (hub_request DeleteHub s b) w =
  (Some match db (calls w) (remove (JString s)) with
        | Fulfilled deleted =>
            if truthy deleted then [ {| status := 204; body := EmptyBody |} ]
            else [ not_found "I cannot find the hub you are looking for" ]
        | Rejected e => [ failure "success" e ]
        | Pending => []
        end,
   log_call (remove (JString s)) w).
Proof.
  unfold handle. cbn [hub_request]. rewrite route_delete_hub.
  cbn [route_handler on payload]. unfold delete_hub, db_call.
  rewrite param_bound.
  destruct (db (calls w) (remove (JString s))) as [d|e|]; try reflexivity.
  cbv beta iota delta [then_catch then_ catch_]. destruct (truthy d); reflexivity.
Qed.

(** Every hub route makes exactly the call [hub_call] names, once. *)
Lemma handle_calls rt id b w :
  snd (serve (hub_request rt id b) w) = log_call (hub_call rt id b) w.
Proof.
  destruct rt; cbn [hub_call].
  - rewrite handle_get_hubs. reflexivity.
  - rewrite handle_get_hub_by_id. reflexivity.
  - rewrite handle_post_hubs. reflexivity.
  - rewrite handle_put_hub. reflexivity.
  - rewrite handle_delete_hub. reflexivity.
Qed.

(** The route table with its path patterns parsed. *)
Lemma server_table :
  routes =
  [ mkRoute GET [] get_root;
    mkRoute GET [Lit "now"] (get_now clock);
    mkRoute GET [Lit "hubs"] (get_hubs db);
    mkRoute GET [Lit "hubs"; Par "id"] (get_hub_by_id db);
    mkRoute POST [Lit "hubs"] (post_hubs db);
    mkRoute PUT [Lit "hubs"; Par "id"] (put_hub db);
    mkRoute DELETE [Lit "hubs"; Par "id"] (delete_hub db) ].
Proof. reflexivity. Qed.

(** In this route table a request that finds a route is for the greeting,
    for the clock, or is one that [hub_request] builds. *)
Lemma hub_requests_exhaustive rq rt ps :
  lookup_route routes rq = Some (rt, ps) ->
  path rq = [] \/ path rq = ["now"] \/
  exists hr id, rq = hub_request hr id (payload rq).
Proof.
  rewrite server_table.
  destruct rq as [m p b]. cbn [path payload].
  destruct p as [|a [|a2 [|a3 p]]]; [auto | | | ].
  - destruct (String.eqb_spec "now" a) as [<-|Hnow]; [auto|].
    apply String.eqb_neq in Hnow.
    destruct (String.eqb_spec "hubs" a) as [<-|Hhubs].
    + intros H. right; right.
      destruct m; cbn -[String.eqb] in H; try discriminate.
      * by exists GetHubs, "".
      * by exists PostHubs, "".
    + apply String.eqb_neq in Hhubs. intros H. exfalso.
      destruct m; cbn -[String.eqb] in H; rewrite ?Hnow, ?Hhubs in H; discriminate.
  - destruct (String.eqb_spec "hubs" a) as [<-|Hhubs].
    + intros H. right; right.
      destruct m; cbn -[String.eqb] in H; try discriminate.
      * by exists GetHubById, a2.
      * by exists PutHub, a2.
      * by exists DeleteHub, a2.
    + apply String.eqb_neq in Hhubs. intros H. exfalso.
      destruct m; cbn -[String.eqb] in H; rewrite ?Hhubs in H;
        try discriminate;
        destruct (String.eqb "now" a); discriminate.
  - intros H. exfalso.
    destruct m; cbn -[String.eqb] in H;
      repeat match type of H with
             | context [String.eqb ?x ?y] => destruct (String.eqb x y); cbn -[String.eqb] in H
             end; discriminate.
Qed.

(** ** The id-addressed routes *)

(** C1. [GET /hubs/:id]: when [findById(id)] resolves with a truthy value
    [h] the response is 200 with body [h]; when it resolves with a falsy
    value the response is 404 with
    [{success:false, message:'I cannot find the hub you are looking for.'}];
    when it rejects with [e] the response is 500 with
    [{success:false, err:e}]. *)
Theorem get_hub_by_id_responses (id : string) (b : JSValue) (w : World) :
  let rq := {| method := GET; path := ["hubs"; id]; payload := b |} in
  let p := db (calls w) (findById (JString id)) in
  (forall h, p = Fulfilled h -> truthy h = true ->
     fst (serve rq w) = Some [ {| status := 200; body := JsonBody h |} ]) /\
  (forall v, p = Fulfilled v -> truthy v = false ->
     fst (serve rq w) =
     Some [ {| status := 404;
               body := JsonBody (JObject
                 [("success", JBool false);
                  ("message",
                   JString "I cannot find the hub you are looking for.")]) |} ]) /\
  (forall e, p = Rejected e ->
     fst (serve rq w) =
     Some [ {| status := 500;
               body := JsonBody (JObject
                 [("success", JBool false); ("err", e)]) |} ]).
Proof.
  intros rq p.
  pose proof (handle_get_hub_by_id id b w) as E.
  change (hub_request GetHubById id b) with rq in E.
  fold p in E. rewrite E. cbn [fst].
  repeat split; intros x Hp; rewrite Hp; try intros ->; reflexivity.
Qed.

(** C2. [PUT /hubs/:id] with parsed body [b] calls [update(id, b)]; a
    truthy result [u] gives 200 with [{success:true, updated:u}], a falsy
    one 404 with [{success:false, message:'I cannot find the hub you are
    looking for'}], a rejection with [e] 500 with [{success:false, err:e}]. *)
Theorem put_hub_responses (id : string) (b : JSValue) (w : World) :
  let rq := {| method := PUT; path := ["hubs"; id]; payload := b |} in
  let p := db (calls w) (update (JString id) b) in
  calls (snd (serve rq w)) = (calls w ++ [update (JString id) b])%list /\
  (forall u, p = Fulfilled u -> truthy u = true ->
     fst (serve rq w) =
     Some [ {| status := 200;
               body := JsonBody (JObject
                 [("success", JBool true); ("updated", u)]) |} ]) /\
  (forall v, p = Fulfilled v -> truthy v = false ->
     fst (serve rq w) =
     Some [ {| status := 404;
               body := JsonBody (JObject
                 [("success", JBool false);
                  ("message",
                   JString "I cannot find the hub you are looking for")]) |} ]) /\
  (forall e, p = Rejected e ->
     fst (serve rq w) =
     Some [ {| status := 500;
               body := JsonBody (JObject
                 [("success", JBool false); ("err", e)]) |} ]).
Proof.
  intros rq p.
  pose proof (handle_put_hub id b w) as E.
  change (hub_request PutHub id b) with rq in E.
  fold p in E. rewrite E. cbn [fst snd].
  repeat split; intros x Hp; rewrite Hp; try intros ->; reflexivity.
Qed.

(** C3. [DELETE /hubs/:id] calls [remove(id)]; a truthy result gives 204
    with an empty body, a falsy one 404 with [{success:false,
    message:'I cannot find the hub you are looking for'}], a rejection with
    [e] 500 with [{success:false, err:e}]. *)
Theorem delete_hub_responses (id : string) (b : JSValue) (w : World) :
  let rq := {| method := DELETE; path := ["hubs"; id]; payload := b |} in
  let p := db (calls w) (remove (JString id)) in
  calls (snd (serve rq w)) = (calls w ++ [remove (JString id)])%list /\
  (forall d, p = Fulfilled d -> truthy d = true ->
     fst (serve rq w) = Some [ {| status := 204; body := EmptyBody |} ]) /\
  (forall v, p = Fulfilled v -> truthy v = false ->
     fst (serve rq w) =
     Some [ {| status := 404;
               body := JsonBody (JObject
                 [("success", JBool false);
                  ("message",
                   JString "I cannot find the hub you are looking for")]) |} ]) /\
  (forall e, p = Rejected e ->
     fst (serve rq w) =
     Some [ {| status := 500;
               body := JsonBody (JObject
                 [("success", JBool false); ("err", e)]) |} ]).
Proof.
  intros rq p.
  pose proof (handle_delete_hub id b w) as E.
  change (hub_request DeleteHub id b) with rq in E.
  fold p in E. rewrite E. cbn [fst snd].
  repeat split; intros x Hp; rewrite Hp; try intros ->; reflexivity.
Qed.

(** C10. On the three id-addressed routes the [:id] segment of the path
    reaches the collaborator as the very string the router extracted: the
    one call made is [findById(id)], [update(id, body)] or [remove(id)] with
    [id] that string, whatever its content. *)
Theorem id_forwarded_verbatim (id : string) (b : JSValue) (w : World) :
  calls (snd (serve {| method := GET; path := ["hubs"; id]; payload := b |} w))
  = (calls w ++ [findById (JString id)])%list /\
  calls (snd (serve {| method := PUT; path := ["hubs"; id]; payload := b |} w))
  = (calls w ++ [update (JString id) b])%list /\
  calls (snd (serve {| method := DELETE; path := ["hubs"; id]; payload := b |} w))
  = (calls w ++ [remove (JString id)])%list.
Proof.
  pose proof (handle_calls GetHubById id b w) as Hget.
  pose proof (handle_calls PutHub id b w) as Hput.
  pose proof (handle_calls DeleteHub id b w) as Hdel.
  cbn [hub_request hub_call] in *.
  rewrite Hget, Hput, Hdel. auto.
Qed.

(** ** The collection routes *)

(** C9. [GET /hubs] has no not-found branch: whatever [find()] resolves
    with, truthy or falsy, the response is 200 with that value as body. *)
Theorem get_hubs_resolved_200 (b : JSValue) (w : World) (hubs : JSValue) :
  db (calls w) find = Fulfilled hubs ->
  fst (serve {| method := GET; path := ["hubs"]; payload := b |} w)
  = Some [ {| status := 200; body := JsonBody hubs |} ].
Proof.
  intros Hp.
  pose proof (handle_get_hubs "" b w) as E. cbn [hub_request] in E.
  rewrite E, Hp. reflexivity.
Qed.

(** ** All hub routes *)

(** C6. On each of the five hub routes a rejection of the collaborator call
    with [e] is answered by status 500 and a JSON object in which [err] is
    [e] and the success flag is [false].  The flag is spelled [success] or
    [sucess], and the spelling is fixed by the route alone: whatever a
    route writes is the resolved value itself, an empty body, or an
    envelope that opens with the flag in the spelling of that route. *)
Theorem rejection_gives_500 (rt : HubRoute) :
  exists flag : string,
    (flag = "success" \/ flag = "sucess") /\
    (forall (id : string) (b e : JSValue) (w : World),
       db (calls w) (hub_call rt id b) = Rejected e ->
       exists obj,
         fst (serve (hub_request rt id b) w)
         = Some [ {| status := 500; body := JsonBody obj |} ] /\
         get_field "err" obj = Some e /\
         get_field flag obj = Some (JBool false)) /\
    (forall (id : string) (b : JSValue) (w : World) (r : Response),
       fst (serve (hub_request rt id b) w) = Some [r] ->
       body r = EmptyBody \/
       (exists v, db (calls w) (hub_call rt id b) = Fulfilled v /\
                  body r = JsonBody v) \/
       (exists ok rest,
          body r = JsonBody (JObject ((flag, JBool ok) :: rest)))).
Proof.
  destruct rt;
    [ exists "sucess" | exists "success" | exists "sucess"
    | exists "success" | exists "success" ];
    (split; [auto|]); split.
  all: intros id b.
  1, 3, 5, 7, 9:
    intros e w Hp; cbn [hub_call] in Hp;
    first [ rewrite handle_get_hubs | rewrite handle_get_hub_by_id
          | rewrite handle_post_hubs | rewrite handle_put_hub
          | rewrite handle_delete_hub ];
    rewrite Hp; eexists; (split; [reflexivity | split; reflexivity]).
  all: intros w r; cbn [hub_call];
    first [ rewrite handle_get_hubs | rewrite handle_get_hub_by_id
          | rewrite handle_post_hubs | rewrite handle_put_hub
          | rewrite handle_delete_hub ];
    cbn [fst];
    match goal with |- context [db ?h ?c] => destruct (db h c) as [v|e|] end;
    try destruct (truthy v);
    intros [= <-]; cbn [body failure not_found]; eauto 7.
Qed.

(** C7. On each of the five hub routes, once the collaborator call has
    settled the handler has written exactly one response. *)
Theorem settled_gives_one_response
  (rt : HubRoute) (id : string) (b : JSValue) (w : World) :
  settled (db (calls w) (hub_call rt id b)) = true ->
  exists r : Response, fst (serve (hub_request rt id b) w) = Some [r].
Proof.
  intros Hs. destruct rt; cbn [hub_call] in Hs.
  - rewrite handle_get_hubs.
    destruct (db (calls w) find); [eauto | eauto | discriminate].
  - rewrite handle_get_hub_by_id.
    destruct (db (calls w) (findById (JString id))) as [h| |];
      [destruct (truthy h); eauto | eauto | discriminate].
  - rewrite handle_post_hubs.
    destruct (db (calls w) (add b)); [eauto | eauto | discriminate].
  - rewrite handle_put_hub.
    destruct (db (calls w) (update (JString id) b)) as [u| |];
      [destruct (truthy u); eauto | eauto | discriminate].
  - rewrite handle_delete_hub.
    destruct (db (calls w) (remove (JString id))) as [d| |];
      [destruct (truthy d); eauto | eauto | discriminate].
Qed.

(** While the call is pending nothing has been written. *)
Lemma pending_gives_no_response rt id b w :
  db (calls w) (hub_call rt id b) = Pending ->
  fst (serve (hub_request rt id b) w) = Some [].
Proof.
  intros Hp. destruct rt; cbn [hub_call] in Hp.
  - rewrite handle_get_hubs, Hp. reflexivity.
  - rewrite handle_get_hub_by_id, Hp. reflexivity.
  - rewrite handle_post_hubs, Hp. reflexivity.
  - rewrite handle_put_hub, Hp. reflexivity.
  - rewrite handle_delete_hub, Hp. reflexivity.
Qed.

(** ** The clock route *)


Lemma lookup_route_In rs rq rt ps :
  lookup_route rs rq = Some (rt, ps) -> In rt rs.
Proof.
  induction rs as [|r rs IH]; cbn [lookup_route]; [discriminate|].
  destruct (Method_eqb (route_method r) (method rq)).
  - destruct (match_path (route_path r) (path rq)).
    + intros [= <- _]. left; reflexivity.
    + intros H. right; auto.
  - intros H. right; auto.
Qed.





End Properties.

(** * Concrete runs *)

(** [GET /hubs/1] against a collaborator that finds the hub, one that
    finds nothing and one that fails. *)
Lemma get_hub_by_id_responses_witness :
  let rq := {| method := GET; path := ["hubs"; "1"]; payload := JUndefined |} in
  fst (handle (db_const (Fulfilled hub_one)) clock_zero rq init_world)
  = Some [ {| status := 200; body := JsonBody hub_one |} ] /\
  fst (handle (db_const (Fulfilled JUndefined)) clock_zero rq init_world)
  = Some [ {| status := 404;
              body := JsonBody (JObject
                [("success", JBool false);
                 ("message",
                  JString "I cannot find the hub you are looking for.")]) |} ] /\
  fst (handle (db_const (Rejected boom)) clock_zero rq init_world)
  = Some [ {| status := 500;
              body := JsonBody (JObject
                [("success", JBool false); ("err", boom)]) |} ].
Proof.
  intros rq. split; [|split].
  - apply (proj1 (get_hub_by_id_responses
                    (db_const (Fulfilled hub_one)) clock_zero "1" JUndefined
                    init_world) hub_one); reflexivity.
  - apply (proj1 (proj2 (get_hub_by_id_responses
                    (db_const (Fulfilled JUndefined)) clock_zero "1" JUndefined
                    init_world)) JUndefined); reflexivity.
  - apply (proj2 (proj2 (get_hub_by_id_responses
                    (db_const (Rejected boom)) clock_zero "1" JUndefined
                    init_world)) boom); reflexivity.
Defined.

(** [PUT /hubs/1] in the same three situations. *)
Lemma put_hub_responses_witness :
  let rq := {| method := PUT; path := ["hubs"; "1"]; payload := new_hub |} in
  fst (handle (db_const (Fulfilled hub_one)) clock_zero rq init_world)
  = Some [ {| status := 200;
              body := JsonBody (JObject
                [("success", JBool true); ("updated", hub_one)]) |} ] /\
  fst (handle (db_const (Fulfilled JUndefined)) clock_zero rq init_world)
  = Some [ {| status := 404;
              body := JsonBody (JObject
                [("success", JBool false);
                 ("message",
                  JString "I cannot find the hub you are looking for")]) |} ] /\
  fst (handle (db_const (Rejected boom)) clock_zero rq init_world)
  = Some [ {| status := 500;
              body := JsonBody (JObject
                [("success", JBool false); ("err", boom)]) |} ].
Proof.
  intros rq. split; [|split].
  - apply (proj1 (proj2 (put_hub_responses
                    (db_const (Fulfilled hub_one)) clock_zero "1" new_hub
                    init_world)) hub_one); reflexivity.
  - apply (proj1 (proj2 (proj2 (put_hub_responses
                    (db_const (Fulfilled JUndefined)) clock_zero "1" new_hub
                    init_world))) JUndefined); reflexivity.
  - apply (proj2 (proj2 (proj2 (put_hub_responses
                    (db_const (Rejected boom)) clock_zero "1" new_hub
                    init_world))) boom); reflexivity.
Defined.

(** [DELETE /hubs/1]: [remove] resolving with [true], with [0], and
    rejecting. *)
Lemma delete_hub_responses_witness :
  let rq := {| method := DELETE; path := ["hubs"; "1"]; payload := JUndefined |} in
  fst (handle (db_const (Fulfilled (JBool true))) clock_zero rq init_world)
  = Some [ {| status := 204; body := EmptyBody |} ] /\
  fst (handle (db_const (Fulfilled (JNumber (S754_zero false)))) clock_zero rq
         init_world)
  = Some [ {| status := 404;
              body := JsonBody (JObject
                [("success", JBool false);
                 ("message",
                  JString "I cannot find the hub you are looking for")]) |} ] /\
  fst (handle (db_const (Rejected boom)) clock_zero rq init_world)
  = Some [ {| status := 500;
              body := JsonBody (JObject
                [("success", JBool false); ("err", boom)]) |} ].
Proof.
  intros rq. split; [|split].
  - apply (proj1 (proj2 (delete_hub_responses
                    (db_const (Fulfilled (JBool true))) clock_zero "1"
                    JUndefined init_world)) (JBool true)); reflexivity.
  - apply (proj1 (proj2 (proj2 (delete_hub_responses
                    (db_const (Fulfilled (JNumber (S754_zero false))))
                    clock_zero "1" JUndefined init_world)))
             (JNumber (S754_zero false))); reflexivity.
  - apply (proj2 (proj2 (proj2 (delete_hub_responses
                    (db_const (Rejected boom)) clock_zero "1" JUndefined
                    init_world))) boom); reflexivity.
Defined.

(** [GET /hubs] when [find] resolves with [[]] and with [null]. *)
Lemma get_hubs_resolved_200_witness :
  fst (handle (db_const (Fulfilled (JArray []))) clock_zero
         {| method := GET; path := ["hubs"]; payload := JUndefined |} init_world)
  = Some [ {| status := 200; body := JsonBody (JArray []) |} ] /\
  fst (handle (db_const (Fulfilled JNull)) clock_zero
         {| method := GET; path := ["hubs"]; payload := JUndefined |} init_world)
  = Some [ {| status := 200; body := JsonBody JNull |} ].
Proof.
  split.
  - apply (get_hubs_resolved_200 (db_const (Fulfilled (JArray []))) clock_zero
             JUndefined init_world (JArray [])); reflexivity.
  - apply (get_hubs_resolved_200 (db_const (Fulfilled JNull)) clock_zero
             JUndefined init_world JNull); reflexivity.
Defined.

(** A rejected [DELETE /hubs/7]. *)
Lemma rejection_gives_500_witness :
  exists flag : string,
    (flag = "success" \/ flag = "sucess") /\
    exists obj,
      fst (handle (db_const (Rejected boom)) clock_zero
             (hub_request DeleteHub "7" JUndefined) init_world)
      = Some [ {| status := 500; body := JsonBody obj |} ] /\
      get_field "err" obj = Some boom /\
      get_field flag obj = Some (JBool false).
Proof.
  destruct (rejection_gives_500 (db_const (Rejected boom)) clock_zero DeleteHub)
    as (flag & Hflag & H & _).
  exists flag. split; [exact Hflag|].
  apply (H "7" JUndefined boom init_world). reflexivity.
Defined.

(** A fulfilled [POST /hubs]. *)
Lemma settled_gives_one_response_witness :
  exists r : Response,
    fst (handle (db_const (Fulfilled hub_one)) clock_zero
           (hub_request PostHubs "" new_hub) init_world) = Some [r].
Proof.
  apply (settled_gives_one_response (db_const (Fulfilled hub_one)) clock_zero
           PostHubs "" new_hub init_world).
  reflexivity.
Defined.

(** C4, evaluated.  [POST /hubs] when [add] resolves: the status is 201 and
    the hub is under [hub], but the flag of the envelope is spelled
    [sucess]; the body has no field [success]. *)
Theorem post_hubs_flag_spelling :
  fst (handle (db_const (Fulfilled hub_one)) clock_zero
         {| method := POST; path := ["hubs"]; payload := new_hub |} init_world)
  = Some [ {| status := 201;
              body := JsonBody (JObject
                [("sucess", JBool true); ("hub", hub_one)]) |} ] /\
  get_field "success" (JObject [("sucess", JBool true); ("hub", hub_one)]) = None.
Proof. split; reflexivity. Qed.

(** C5, evaluated.  [GET /hubs] when [find] rejects: the status is 500 and
    the error is under [err], but the flag of the envelope is spelled
    [sucess]; the body has no field [success]. *)
Theorem get_hubs_flag_spelling :
  fst (handle (db_const (Rejected boom)) clock_zero
         {| method := GET; path := ["hubs"]; payload := JUndefined |} init_world)
  = Some [ {| status := 500;
              body := JsonBody (JObject
                [("sucess", JBool false); ("err", boom)]) |} ] /\
  get_field "success" (JObject [("sucess", JBool false); ("err", boom)]) = None.
Proof. split; reflexivity. Qed.



(** ** Dates: the shape of a timestamp *)

Module TimestampFacts.
Import Date DateFacts.

Lemma length_app (s1 s2 : string) :
  String.length (s1 ++ s2) = (String.length s1 + String.length s2)%nat.
Proof.
  induction s1 as [|c s1 IH]; [reflexivity|].
  change (String c s1 ++ s2) with (String c (s1 ++ s2)).
  cbn [String.length]. by rewrite IH.
Qed.

Lemma length_digits k v : String.length (digits k v) = k.
Proof. induction k as [|k IH]; cbn; [reflexivity|]. by rewrite IH. Qed.

Lemma four_digit_window t :
  0 <= YearFromTime t <= 9999 <-> year0 <= t < year10000.
Proof.
  unfold YearFromTime, year0, year10000.
  pose proof (YearFromDay_spec (Day t)) as [Hlo Hhi].
  assert (Hd : msPerDay * Day t <= t < msPerDay * (Day t + 1))
    by (unfold Day, msPerDay; Z.div_mod_to_equations; lia).
  assert (H0 : DayFromYear 0 = -719528) by reflexivity.
  assert (H1 : DayFromYear 10000 = 2932897) by reflexivity.
  unfold msPerDay in Hd.
  split.
  - intros [Hy0 Hy1].
    pose proof (DayFromYear_mono 0 (YearFromDay (Day t)) Hy0).
    pose proof (DayFromYear_mono (YearFromDay (Day t) + 1) 10000 ltac:(lia)).
    lia.
  - intros [Ht0 Ht1]. split.
    + destruct (Z.le_gt_cases 0 (YearFromDay (Day t))); [assumption|].
      pose proof (DayFromYear_mono (YearFromDay (Day t) + 1) 0 ltac:(lia)).
      lia.
    + destruct (Z.le_gt_cases (YearFromDay (Day t)) 9999); [assumption|].
      pose proof (DayFromYear_mono 10000 (YearFromDay (Day t)) ltac:(lia)).
      lia.
Qed.

Lemma length_toISOString t :
  String.length (toISOString t)
  = if (year0 <=? t) && (t <? year10000) then 24%nat else 27%nat.
Proof.
  pose proof (four_digit_window t) as Hw.
  unfold toISOString. rewrite !length_app, !length_digits.
  unfold year_string.
  destruct (Z.leb_spec year0 t) as [H0|H0];
    destruct (Z.ltb_spec t year10000) as [H1|H1]; cbn [andb].
  - destruct Hw as [_ Hw]. destruct (Hw (conj H0 H1)) as [Hy0 Hy1].
    destruct (Z.leb_spec 0 (YearFromTime t)); [|lia].
    destruct (Z.leb_spec (YearFromTime t) 9999); [|lia].
    cbn [andb]. rewrite length_digits. reflexivity.
  - assert (Hn : ~ (0 <= YearFromTime t <= 9999)) by (rewrite Hw; lia).
    destruct (Z.leb_spec 0 (YearFromTime t));
      destruct (Z.leb_spec (YearFromTime t) 9999); cbn [andb]; try lia.
    all: destruct (YearFromTime t <? 0); rewrite length_app, length_digits;
      reflexivity.
  - assert (Hn : ~ (0 <= YearFromTime t <= 9999)) by (rewrite Hw; lia).
    destruct (Z.leb_spec 0 (YearFromTime t));
      destruct (Z.leb_spec (YearFromTime t) 9999); cbn [andb]; try lia.
    all: destruct (YearFromTime t <? 0); rewrite length_app, length_digits;
      reflexivity.
  - unfold year0, year10000 in *. lia.
Qed.

(** *** Timestamps compared as text *)

Lemma compare_digit_char d1 d2 :
  0 <= d1 <= 9 -> 0 <= d2 <= 9 ->
  Ascii.compare (digit_char d1) (digit_char d2) = (d1 ?= d2).
Proof.
  intros H1 H2.
  destruct (digit_cases d1 H1) as [->|[->|[->|[->|[->|[->|[->|[->|[->| ->]]]]]]]]];
  destruct (digit_cases d2 H2) as [->|[->|[->|[->|[->|[->|[->|[->|[->| ->]]]]]]]]];
  reflexivity.
Qed.

Lemma compare_digits k : forall a b r1 r2,
  String.compare (digits k a ++ r1) (digits k b ++ r2)
  = lex (a mod 10 ^ Z.of_nat k ?= b mod 10 ^ Z.of_nat k) (String.compare r1 r2).
Proof.
  induction k as [|k IH]; intros a b r1 r2.
  - cbn [digits]. change (10 ^ Z.of_nat 0) with 1. rewrite !Z.mod_1_r.
    reflexivity.
  - cbn [digits].
    change (String ?c ?s ++ ?r) with (String c (s ++ r)).
    cbn [String.compare].
    rewrite compare_digit_char by apply mod10_digit.
    rewrite IH.
    rewrite Nat2Z.inj_succ, Z.pow_succ_r by lia.
    assert (Hp : 0 < 10 ^ Z.of_nat k) by (apply Z.pow_pos_nonneg; lia).
    rewrite (Z.mul_comm 10 (10 ^ Z.of_nat k)).
    rewrite !(Z.rem_mul_r _ (10 ^ Z.of_nat k) 10) by lia.
    pose proof (Z.mod_pos_bound a _ Hp) as Ha.
    pose proof (Z.mod_pos_bound b _ Hp) as Hb.
    set (P := 10 ^ Z.of_nat k) in *.
    set (la := a mod P) in *. set (lb := b mod P) in *.
    set (da := (a / P) mod 10). set (db := (b / P) mod 10).
    assert (Hda : 0 <= da <= 9) by apply mod10_digit.
    assert (Hdb : 0 <= db <= 9) by apply mod10_digit.
    destruct (Z.compare_spec da db) as [E|L|G]; cbn [lex].
    + rewrite E. destruct (Z.compare_spec la lb) as [E'|L'|G']; cbn [lex].
      * rewrite E', Z.compare_refl. reflexivity.
      * replace (la + P * db ?= lb + P * db) with Lt; [reflexivity|].
        symmetry. apply Z.compare_lt_iff. lia.
      * replace (la + P * db ?= lb + P * db) with Gt; [reflexivity|].
        symmetry. apply Z.compare_gt_iff. lia.
    + replace (la + P * da ?= lb + P * db) with Lt; [reflexivity|].
      symmetry. apply Z.compare_lt_iff. nia.
    + replace (la + P * da ?= lb + P * db) with Gt; [reflexivity|].
      symmetry. apply Z.compare_gt_iff. nia.
Qed.

Lemma compare_same_head c s1 s2 :
  String.compare (String c "" ++ s1) (String c "" ++ s2) = String.compare s1 s2.
Proof.
  change (String c "" ++ ?s) with (String c s). cbn [String.compare].
  replace (Ascii.compare c c) with Eq; [reflexivity|].
  symmetry. unfold Ascii.compare. apply N.compare_refl.
Qed.

Lemma hour_lt t1 t2 :
  Day t1 = Day t2 -> HourFromTime t1 < HourFromTime t2 -> t1 < t2.
Proof.
  unfold Day, HourFromTime, msPerDay, msPerHour.
  intros. Z.div_mod_to_equations. lia.
Qed.

Lemma min_lt t1 t2 :
  Day t1 = Day t2 -> HourFromTime t1 = HourFromTime t2 ->
  MinFromTime t1 < MinFromTime t2 -> t1 < t2.
Proof.
  unfold Day, HourFromTime, MinFromTime, msPerDay, msPerHour, msPerMinute.
  intros. Z.div_mod_to_equations. lia.
Qed.

Lemma sec_lt t1 t2 :
  Day t1 = Day t2 -> HourFromTime t1 = HourFromTime t2 ->
  MinFromTime t1 = MinFromTime t2 ->
  SecFromTime t1 < SecFromTime t2 -> t1 < t2.
Proof.
  unfold Day, HourFromTime, MinFromTime, SecFromTime,
    msPerDay, msPerHour, msPerMinute, msPerSecond.
  intros. Z.div_mod_to_equations. lia.
Qed.

Lemma ms_lt t1 t2 :
  Day t1 = Day t2 -> HourFromTime t1 = HourFromTime t2 ->
  MinFromTime t1 = MinFromTime t2 -> SecFromTime t1 = SecFromTime t2 ->
  msFromTime t1 < msFromTime t2 -> t1 < t2.
Proof.
  unfold Day, HourFromTime, MinFromTime, SecFromTime, msFromTime,
    msPerDay, msPerHour, msPerMinute, msPerSecond.
  intros. Z.div_mod_to_equations. lia.
Qed.

Lemma day_lt t1 t2 : Day t1 < Day t2 -> t1 < t2.
Proof. unfold Day, msPerDay. intros. Z.div_mod_to_equations. lia. Qed.

Lemma year_lt t1 t2 : YearFromTime t1 < YearFromTime t2 -> t1 < t2.
Proof.
  unfold YearFromTime. intros Hy. apply day_lt.
  pose proof (YearFromDay_spec (Day t1)) as [_ H1].
  pose proof (YearFromDay_spec (Day t2)) as [H2 _].
  pose proof (DayFromYear_mono (YearFromDay (Day t1) + 1) (YearFromDay (Day t2))
                ltac:(lia)).
  lia.
Qed.

Lemma month_cases m :
  0 <= m <= 11 ->
  m = 0 \/ m = 1 \/ m = 2 \/ m = 3 \/ m = 4 \/ m = 5 \/
  m = 6 \/ m = 7 \/ m = 8 \/ m = 9 \/ m = 10 \/ m = 11.
Proof. lia. Qed.

Lemma month_start_next m1 m2 leap :
  leap = 0 \/ leap = 1 -> 0 <= m1 -> m1 < m2 -> m2 <= 11 ->
  month_start m1 leap + DaysInMonth m1 leap <= month_start m2 leap.
Proof.
  intros Hl H0 H12 H11.
  destruct (month_cases m1 ltac:(lia))
    as [->|[->|[->|[->|[->|[->|[->|[->|[->|[->|[->| ->]]]]]]]]]]];
  destruct (month_cases m2 ltac:(lia))
    as [->|[->|[->|[->|[->|[->|[->|[->|[->|[->|[->| ->]]]]]]]]]]];
  try lia; cbn; lia.
Qed.

Lemma month_lt t1 t2 :
  YearFromTime t1 = YearFromTime t2 ->
  MonthFromTime t1 < MonthFromTime t2 -> t1 < t2.
Proof.
  intros Hy Hm. apply day_lt.
  assert (Hl : InLeapYear t1 = InLeapYear t2)
    by (unfold InLeapYear; by rewrite Hy).
  pose proof (month_of_day_spec (DayWithinYear t1) (InLeapYear t1)
                (InLeapYear_01 t1) (DayWithinYear_range t1)) as [B1 D1].
  pose proof (month_of_day_spec (DayWithinYear t2) (InLeapYear t2)
                (InLeapYear_01 t2) (DayWithinYear_range t2)) as [B2 D2].
  fold (MonthFromTime t1) in B1, D1. fold (MonthFromTime t2) in B2, D2.
  pose proof (month_start_next (MonthFromTime t1) (MonthFromTime t2)
                (InLeapYear t1) (InLeapYear_01 t1)
                ltac:(lia) Hm ltac:(lia)) as Hs.
  rewrite <- Hl in D2. unfold DayWithinYear in *. rewrite Hy in *. lia.
Qed.

Lemma date_lt t1 t2 :
  YearFromTime t1 = YearFromTime t2 ->
  MonthFromTime t1 = MonthFromTime t2 ->
  DateFromTime t1 < DateFromTime t2 -> t1 < t2.
Proof.
  intros Hy Hm Hd. apply day_lt.
  assert (Hl : InLeapYear t1 = InLeapYear t2)
    by (unfold InLeapYear; by rewrite Hy).
  unfold DateFromTime, DayWithinYear in Hd. rewrite Hy, Hm, Hl in Hd. lia.
Qed.

Lemma same_date_same_day t1 t2 :
  YearFromTime t1 = YearFromTime t2 ->
  MonthFromTime t1 = MonthFromTime t2 ->
  DateFromTime t1 = DateFromTime t2 -> Day t1 = Day t2.
Proof.
  intros Hy Hm Hd.
  assert (Hl : InLeapYear t1 = InLeapYear t2)
    by (unfold InLeapYear; by rewrite Hy).
  unfold DateFromTime, DayWithinYear in Hd. rewrite Hy, Hm, Hl in Hd. lia.
Qed.

Lemma lex_Lt c r : lex c r = Lt -> c = Lt \/ (c = Eq /\ r = Lt).
Proof. destruct c; cbn; auto; discriminate. Qed.

Lemma lex_Eq c r : lex c r = Eq -> c = Eq /\ r = Eq.
Proof. destruct c; cbn; auto; discriminate. Qed.

Lemma lex_opp c r : CompOpp (lex c r) = lex (CompOpp c) (CompOpp r).
Proof. destruct c; reflexivity. Qed.

Lemma fields_compare_opp t1 t2 :
  fields_compare t2 t1 = CompOpp (fields_compare t1 t2).
Proof.
  unfold fields_compare. rewrite !lex_opp, <- !Z.compare_antisym. reflexivity.
Qed.

Lemma fields_compare_Lt t1 t2 : fields_compare t1 t2 = Lt -> t1 < t2.
Proof.
  unfold fields_compare. intros H.
  apply lex_Lt in H as [H|[Hy H]]; [apply -> Z.compare_lt_iff in H; by apply year_lt|].
  apply Z.compare_eq in Hy.
  apply lex_Lt in H as [H|[Hm H]];
    [apply -> Z.compare_lt_iff in H; apply month_lt; [assumption|lia]|].
  apply Z.compare_eq in Hm. assert (Hm' : MonthFromTime t1 = MonthFromTime t2) by lia.
  apply lex_Lt in H as [H|[Hd H]];
    [apply -> Z.compare_lt_iff in H; by apply date_lt|].
  apply Z.compare_eq in Hd.
  pose proof (same_date_same_day t1 t2 Hy Hm' Hd) as HD.
  apply lex_Lt in H as [H|[Hh H]];
    [apply -> Z.compare_lt_iff in H; by apply hour_lt|].
  apply Z.compare_eq in Hh.
  apply lex_Lt in H as [H|[Hmi H]];
    [apply -> Z.compare_lt_iff in H; by apply min_lt|].
  apply Z.compare_eq in Hmi.
  apply lex_Lt in H as [H|[Hs H]];
    [apply -> Z.compare_lt_iff in H; by apply sec_lt|].
  apply Z.compare_eq in Hs.
  apply -> Z.compare_lt_iff in H. by apply ms_lt.
Qed.

Lemma fields_compare_Eq t1 t2 : fields_compare t1 t2 = Eq -> t1 = t2.
Proof.
  unfold fields_compare. intros H.
  apply lex_Eq in H as [Hy H]. apply lex_Eq in H as [Hm H].
  apply lex_Eq in H as [Hd H]. apply lex_Eq in H as [Hh H].
  apply lex_Eq in H as [Hmi H]. apply lex_Eq in H as [Hs Hms].
  apply Z.compare_eq in Hy, Hm, Hd, Hh, Hmi, Hs, Hms.
  assert (Hm' : MonthFromTime t1 = MonthFromTime t2) by lia.
  pose proof (same_date_same_day t1 t2 Hy Hm' Hd) as HD.
  pose proof (time_fields t1) as T1. pose proof (time_fields t2) as T2.
  rewrite Hh, Hmi, Hs, Hms, T2 in T1.
  unfold Day, TimeWithinDay, msPerDay in *. Z.div_mod_to_equations. lia.
Qed.

Lemma fields_compare_spec t1 t2 : fields_compare t1 t2 = (t1 ?= t2).
Proof.
  destruct (fields_compare t1 t2) eqn:E; symmetry.
  - apply fields_compare_Eq in E as ->. apply Z.compare_refl.
  - apply Z.compare_lt_iff. by apply fields_compare_Lt.
  - apply Z.compare_gt_iff. apply fields_compare_Lt.
    rewrite fields_compare_opp, E. reflexivity.
Qed.

Lemma year_string_four_digits t :
  year0 <= t < year10000 -> year_string (YearFromTime t) = digits 4 (YearFromTime t).
Proof.
  intros Hw. apply four_digit_window in Hw. unfold year_string.
  destruct (Z.leb_spec 0 (YearFromTime t)); [|lia].
  destruct (Z.leb_spec (YearFromTime t) 9999); [|lia]. reflexivity.
Qed.

Lemma compare_small k a b r1 r2 :
  0 <= a < 10 ^ Z.of_nat k -> 0 <= b < 10 ^ Z.of_nat k ->
  String.compare (digits k a ++ r1) (digits k b ++ r2)
  = lex (a ?= b) (String.compare r1 r2).
Proof. intros Ha Hb. by rewrite compare_digits, !Z.mod_small. Qed.

Lemma date_range t : 1 <= DateFromTime t <= 31.
Proof.
  pose proof (date_fields t) as (_ & Hdt & _).
  pose proof (DaysInMonth_le_31 (MonthFromTime t)
                (if is_leap (YearFromTime t) then 1 else 0)) as H.
  destruct (is_leap (YearFromTime t)); lia.
Qed.

(** Within the years 0000 to 9999 timestamps compare as text the way
    their time values compare as numbers. *)
Theorem compare_toISOString t1 t2 :
  year0 <= t1 < year10000 -> year0 <= t2 < year10000 ->
  String.compare (toISOString t1) (toISOString t2) = (t1 ?= t2).
Proof.
  intros W1 W2. rewrite <- fields_compare_spec.
  pose proof (proj2 (four_digit_window t1) W1) as Y1.
  pose proof (proj2 (four_digit_window t2) W2) as Y2.
  pose proof (date_fields t1) as (Hmo1 & _ & _).
  pose proof (date_fields t2) as (Hmo2 & _ & _).
  pose proof (date_range t1) as Hdt1. pose proof (date_range t2) as Hdt2.
  pose proof (time_fields_range t1) as (Hh1 & Hmi1 & Hs1 & Hms1).
  pose proof (time_fields_range t2) as (Hh2 & Hmi2 & Hs2 & Hms2).
  unfold toISOString, fields_compare.
  rewrite !year_string_four_digits by assumption.
  rewrite (compare_small 4) by (cbn; lia). f_equal.
  rewrite compare_same_head, (compare_small 2) by (cbn; lia). f_equal.
  rewrite compare_same_head, (compare_small 2) by (cbn; lia). f_equal.
  rewrite compare_same_head, (compare_small 2) by (cbn; lia). f_equal.
  rewrite compare_same_head, (compare_small 2) by (cbn; lia). f_equal.
  rewrite compare_same_head, (compare_small 2) by (cbn; lia). f_equal.
  rewrite compare_same_head, (compare_small 3) by (cbn; lia).
  destruct (msFromTime t1 ?= msFromTime t2); reflexivity.
Qed.

End TimestampFacts.

(** * Further properties of the handlers and of the route table *)

Section Coverage.

Variable db : list DbCall -> DbCall -> Promise.
Variable clock : nat -> Z.

Local Abbreviation serve := (handle db clock).
Local Abbreviation routes := (server db clock).

Lemma handle_root b w :
  serve {| method := GET; path := []; payload := b |} w =
  (Some [ {| status := 200; body := TextBody "hello world from express!!" |} ], w).
Proof. reflexivity. Qed.

Lemma handle_now_any b w :
  serve {| method := GET; path := ["now"]; payload := b |} w =
  (Some [ {| status := 200;
             body := TextBody (Date.toISOString (clock (ticks w))) |} ],
   {| calls := calls w; ticks := S (ticks w) |}).
Proof. reflexivity. Qed.

(** In this route table every request is the greeting, the clock, a hub
    request, or finds no route. *)
Lemma request_cases rq :
  rq = {| method := GET; path := []; payload := payload rq |} \/
  rq = {| method := GET; path := ["now"]; payload := payload rq |} \/
  (exists hr id, rq = hub_request hr id (payload rq)) \/
  lookup_route routes rq = None.
Proof.
  rewrite server_table.
  destruct rq as [m p b]. cbn [payload].
  destruct p as [|a [|a2 [|a3 p]]].
  - destruct m; auto; right; right; right; reflexivity.
  - destruct (String.eqb_spec "now" a) as [<-|Hnow].
    { destruct m; auto; right; right; right; reflexivity. }
    destruct (String.eqb_spec "hubs" a) as [<-|Hhubs].
    { destruct m;
        first [ by (right; right; left; exists GetHubs, "")
              | by (right; right; left; exists PostHubs, "")
              | (right; right; right; reflexivity) ]. }
    right; right; right.
    apply String.eqb_neq in Hnow, Hhubs.
    destruct m; cbn -[String.eqb]; rewrite ?Hnow, ?Hhubs; reflexivity.
  - destruct (String.eqb_spec "hubs" a) as [<-|Hhubs].
    { destruct m;
        first [ by (right; right; left; exists GetHubById, a2)
              | by (right; right; left; exists PutHub, a2)
              | by (right; right; left; exists DeleteHub, a2)
              | (right; right; right; reflexivity) ]. }
    right; right; right.
    apply String.eqb_neq in Hhubs.
    destruct m; cbn -[String.eqb]; rewrite ?Hhubs;
      try destruct (String.eqb "now" a); reflexivity.
  - right; right; right.
    destruct m; cbn -[String.eqb];
      repeat match goal with
             | |- context [String.eqb ?x ?y] => destruct (String.eqb x y)
             end; reflexivity.
Qed.

(** *** The greeting *)

(** X1. [GET /] is answered 200 with the text
    [hello world from express!!], whatever the body; it calls nothing on
    the collaborator and does not read the clock. *)
Theorem root_greeting (b : JSValue) (w : World) :
  serve {| method := GET; path := []; payload := b |} w =
  (Some [ {| status := 200; body := TextBody "hello world from express!!" |} ], w).
Proof. apply handle_root. Qed.

(** *** What can be written in answer to a request *)

(** The answers of a hub route, by the way the promise ends. *)
Lemma hub_answers rt id b w :
  exists l, fst (serve (hub_request rt id b) w) = Some l /\
  match db (calls w) (hub_call rt id b) with
  | Fulfilled v =>
      exists r, l = [r] /\
        if id_addressed rt && negb (truthy v)
        then status r = 404
        else (status r = 200 \/ status r = 201 \/ status r = 204)
  | Rejected e => exists r, l = [r] /\ status r = 500
  | Pending => l = []
  end.
Proof.
  destruct rt; cbn [hub_call id_addressed andb];
    [ rewrite handle_get_hubs | rewrite handle_get_hub_by_id
    | rewrite handle_post_hubs | rewrite handle_put_hub
    | rewrite handle_delete_hub ];
    cbn [fst]; eexists; (split; [reflexivity|]);
    match goal with |- context [db ?h ?c] => destruct (db h c) as [v|e|] end;
    try destruct (truthy v); cbn; eauto 6.
Qed.

(** X5. Whatever the request, whatever the collaborator does, a handler
    writes at most one response, and its status is one of 200, 201, 204,
    404 and 500. *)
Theorem at_most_one_known_status
  (rq : HttpRequest) (w : World) (l : list Response) :
  fst (serve rq w) = Some l ->
  (length l <= 1)%nat /\
  Forall (fun r => known_status (status r) = true) l.
Proof.
  destruct (request_cases rq) as [E|[E|[(hr & id & E)|Hn]]].
  - rewrite E, handle_root. intros [= <-]. split; [cbn; lia|].
    repeat constructor.
  - rewrite E, handle_now_any. intros [= <-]. split; [cbn; lia|].
    repeat constructor.
  - rewrite E. destruct (hub_answers hr id (payload rq) w) as (l' & -> & H).
    intros [= <-].
    destruct (db (calls w) (hub_call hr id (payload rq))) as [v|e|].
    + destruct H as (r & -> & H). split; [cbn; lia|].
      constructor; [|constructor]. cbv beta. unfold known_status.
      destruct (id_addressed hr && negb (truthy v)).
      * destruct r as [s bd]; cbn in *. subst s. reflexivity.
      * destruct r as [s bd]; cbn in *.
        destruct H as [->|[->| ->]]; reflexivity.
    + destruct H as (r & -> & H). split; [cbn; lia|].
      constructor; [|constructor].
      destruct r as [s bd]; cbn in *. subst s. reflexivity.
    + subst l'. split; [cbn; lia|]. constructor.
  - unfold handle. rewrite Hn. discriminate.
Qed.

(** X6. On a hub route the status tells how the collaborator call ended:
    500 exactly when it was rejected, 404 exactly when an id-addressed
    route got a falsy result, and 200, 201 or 204 in the remaining
    fulfilled cases. *)
Theorem status_reflects_outcome
  (rt : HubRoute) (id : string) (b : JSValue) (w : World) (r : Response) :
  fst (serve (hub_request rt id b) w) = Some [r] ->
  let p := db (calls w) (hub_call rt id b) in
  (status r = 500 <-> exists e, p = Rejected e) /\
  (status r = 404 <->
     id_addressed rt = true /\ exists v, p = Fulfilled v /\ truthy v = false) /\
  (status r = 200 \/ status r = 201 \/ status r = 204 <->
     exists v, p = Fulfilled v /\ (id_addressed rt = false \/ truthy v = true)).
Proof.
  intros Hr p. destruct (hub_answers rt id b w) as (l & Hl & H).
  rewrite Hr in Hl. injection Hl as <-. fold p in H.
  destruct p as [v|e|]; [| |discriminate];
    destruct H as (r' & [= <-] & H).
  - assert (S : status r = 404 /\ id_addressed rt = true /\ truthy v = false \/
                (status r = 200 \/ status r = 201 \/ status r = 204) /\
                (id_addressed rt = false \/ truthy v = true))
      by (destruct (id_addressed rt), (truthy v); cbn in H; auto).
    clear H. split; [|split]; split.
    + intros Hs. exfalso. destruct S as [(H1 & _)|(H1 & _)]; lia.
    + intros (e & He). discriminate.
    + intros Hs. destruct S as [(H1 & H2 & H3)|(H1 & _)]; [eauto|lia].
    + intros (Hid & v' & [= <-] & Htr).
      destruct S as [(H1 & _)|(H1 & [H2|H2])]; [assumption| |]; congruence.
    + intros Hs. destruct S as [(H1 & _)|(H1 & H2)]; [lia|eauto].
    + intros (v' & [= <-] & Hor).
      destruct S as [(H1 & H2 & H3)|(H1 & _)]; [|assumption].
      destruct Hor; congruence.
  - split; [|split]; split.
    + eauto.
    + intros _. exact H.
    + intros Hs. lia.
    + intros (_ & v & Hv & _). discriminate.
    + intros Hs. lia.
    + intros (v & Hv & _). discriminate.
Qed.

(** X7. A hub request goes unanswered exactly when the collaborator call
    never settles: nothing in the handlers times out or answers in its
    place. *)
Theorem unanswered_iff_pending
  (rt : HubRoute) (id : string) (b : JSValue) (w : World) :
  fst (serve (hub_request rt id b) w) = Some [] <->
  db (calls w) (hub_call rt id b) = Pending.
Proof.
  destruct (hub_answers rt id b w) as (l & Hl & H). rewrite Hl.
  destruct (db (calls w) (hub_call rt id b)) as [v|e|].
  - destruct H as (r & -> & _). split; discriminate.
  - destruct H as (r & -> & _). split; discriminate.
  - subst l. split; reflexivity.
Qed.

(** X8. The routes that take no body do not look at one: [GET /],
    [GET /now], [GET /hubs], [GET /hubs/:id] and [DELETE /hubs/:id] answer
    and act the same whatever [req.body] holds. *)
Theorem body_ignored (m : Method) (p : list string) (b1 b2 : JSValue) (w : World) :
  m = GET \/ m = DELETE ->
  serve {| method := m; path := p; payload := b1 |} w
  = serve {| method := m; path := p; payload := b2 |} w.
Proof.
  intros Hm.
  destruct (request_cases {| method := m; path := p; payload := b1 |})
    as [E|[E|[(hr & id & E)|Hn]]]; cbn [payload] in *.
  - injection E as -> ->. reflexivity.
  - injection E as -> ->. reflexivity.
  - destruct hr; cbn [hub_request] in E; injection E as -> ->;
      try (destruct Hm; discriminate).
    + change (serve (hub_request GetHubs "" b1) w
              = serve (hub_request GetHubs "" b2) w).
      by rewrite !handle_get_hubs.
    + change (serve (hub_request GetHubById id b1) w
              = serve (hub_request GetHubById id b2) w).
      by rewrite !handle_get_hub_by_id.
    + change (serve (hub_request DeleteHub id b1) w
              = serve (hub_request DeleteHub id b2) w).
      by rewrite !handle_delete_hub.
  - unfold handle. rewrite Hn.
    change (lookup_route routes {| method := m; path := p; payload := b2 |})
      with (lookup_route routes {| method := m; path := p; payload := b1 |}).
    rewrite Hn. reflexivity.
Qed.

(** *** The handlers on their own *)

(** X10. Each hub handler sets the status itself before it writes, so what
    it writes does not depend on the status [res] carries on entry; the
    greeting and the clock handler set none and answer with the status
    [res] has, 200 on a fresh one. *)
Theorem status_set_by_hub_handlers_only
  (req : Req) (r0 : Res) (code : Z) (w : World) :
  (sent (fst (get_hubs db req (res_status code r0) w))
   = sent (fst (get_hubs db req r0 w)) /\
   sent (fst (get_hub_by_id db req (res_status code r0) w))
   = sent (fst (get_hub_by_id db req r0 w)) /\
   sent (fst (post_hubs db req (res_status code r0) w))
   = sent (fst (post_hubs db req r0 w)) /\
   sent (fst (put_hub db req (res_status code r0) w))
   = sent (fst (put_hub db req r0 w)) /\
   sent (fst (delete_hub db req (res_status code r0) w))
   = sent (fst (delete_hub db req r0 w))) /\
  sent (fst (get_root req (res_status code r0) w))
  = (sent r0 ++ [ {| status := code;
                     body := TextBody "hello world from express!!" |} ])%list /\
  sent (fst (get_now clock req (res_status code r0) w))
  = (sent r0 ++ [ {| status := code;
                     body := TextBody (Date.toISOString (clock (ticks w))) |} ])%list.
Proof.
  split; [|split; reflexivity].
  unfold get_hubs, get_hub_by_id, post_hubs, put_hub, delete_hub, db_call.
  repeat split.
  all: match goal with |- context [db ?h ?c] => destruct (db h c) as [v|e|] end;
    try reflexivity.
  all: cbv beta iota delta [then_catch then_ catch_];
    destruct (truthy v); reflexivity.
Qed.


(** *** Falsy results *)

Lemma truthy_false_iff v :
  truthy v = false <->
  v = JUndefined \/ v = JNull \/ v = JBool false \/
  (exists s, v = JNumber (S754_zero s)) \/ v = JNumber S754_nan \/
  v = JString "".
Proof.
  split.
  - destruct v as [| |[]|[]|s| |]; cbn; try discriminate; eauto 8.
    destruct s; cbn; [auto 8|discriminate].
  - intros [->|[->|[->|[(s & ->)|[->| ->]]]]]; reflexivity.
Qed.

(** X12. On the id-addressed routes a resolved value is taken for "not
    found" exactly when it is [undefined], [null], [false], [0], [-0],
    [NaN] or the empty string; every other value, an empty object or array
    included, counts as found. *)
Theorem not_found_iff_falsy
  (rt : HubRoute) (id : string) (b : JSValue) (w : World)
  (v : JSValue) (r : Response) :
  id_addressed rt = true ->
  db (calls w) (hub_call rt id b) = Fulfilled v ->
  fst (serve (hub_request rt id b) w) = Some [r] ->
  (status r = 404 <->
   v = JUndefined \/ v = JNull \/ v = JBool false \/
   (exists s, v = JNumber (S754_zero s)) \/ v = JNumber S754_nan \/
   v = JString "").
Proof.
  intros Hid Hp Hr. rewrite <- truthy_false_iff.
  destruct (hub_answers rt id b w) as (l & Hl & H).
  rewrite Hr in Hl. injection Hl as <-. rewrite Hp, Hid in H.
  destruct H as (r' & [= <-] & H).
  destruct (truthy v); cbn in H; split; intros; try lia; discriminate.
Qed.

(** *** The clock route *)

(** X13. The text [GET /now] sends is read back by [Date.parse] as the very
    time value the clock gave: the timestamp loses nothing, down to the
    millisecond. *)
Theorem now_body_reads_back (b : JSValue) (w : World) :
  Date.is_time_value (clock (ticks w)) ->
  exists s,
    fst (serve {| method := GET; path := ["now"]; payload := b |} w)
    = Some [ {| status := 200; body := TextBody s |} ] /\
    Date.parse s = Some (clock (ticks w)).
Proof.
  intros Ht. rewrite handle_now_any. eexists. split; [reflexivity|].
  by apply DateFacts.parse_toISOString.
Qed.

(** X14. Two calls of [GET /now] are answered with the same text exactly
    when the clock gave them the same time value. *)
Theorem now_bodies_distinguish_readings (b1 b2 : JSValue) (w1 w2 : World) :
  Date.is_time_value (clock (ticks w1)) ->
  Date.is_time_value (clock (ticks w2)) ->
  (fst (serve {| method := GET; path := ["now"]; payload := b1 |} w1)
   = fst (serve {| method := GET; path := ["now"]; payload := b2 |} w2)
   <-> clock (ticks w1) = clock (ticks w2)).
Proof.
  intros H1 H2. rewrite !handle_now_any. cbn [fst]. split.
  - intros [= E].
    pose proof (DateFacts.parse_toISOString _ H1) as P1.
    pose proof (DateFacts.parse_toISOString _ H2) as P2.
    rewrite E in P1. congruence.
  - intros ->. reflexivity.
Qed.

(** X15. The text [GET /now] sends is 24 characters long for a clock within
    the years 0000 to 9999, and 27 characters, a sign and a six-digit year,
    outside them. *)
Theorem now_body_length (b : JSValue) (w : World) :
  exists s,
    fst (serve {| method := GET; path := ["now"]; payload := b |} w)
    = Some [ {| status := 200; body := TextBody s |} ] /\
    String.length s
    = if (year0 <=? clock (ticks w))
         && (clock (ticks w) <? year10000)
      then 24%nat else 27%nat.
Proof.
  rewrite handle_now_any. eexists. split; [reflexivity|].
  apply TimestampFacts.length_toISOString.
Qed.

(** X16. Within the years 0000 to 9999 the texts [GET /now] sends sort as
    strings in the order of the clock readings behind them: comparing two
    answers character by character gives the comparison of the two time
    values. *)
Theorem now_bodies_sort_by_time (b1 b2 : JSValue) (w1 w2 : World) :
  year0 <= clock (ticks w1) < year10000 ->
  year0 <= clock (ticks w2) < year10000 ->
  exists s1 s2,
    fst (serve {| method := GET; path := ["now"]; payload := b1 |} w1)
    = Some [ {| status := 200; body := TextBody s1 |} ] /\
    fst (serve {| method := GET; path := ["now"]; payload := b2 |} w2)
    = Some [ {| status := 200; body := TextBody s2 |} ] /\
    String.compare s1 s2 = (clock (ticks w1) ?= clock (ticks w2)).
Proof.
  intros H1 H2. rewrite !handle_now_any. do 2 eexists.
  split; [reflexivity|]. split; [reflexivity|].
  by apply TimestampFacts.compare_toISOString.
Qed.

(** *** Runs of handlers, one after the other *)

(** What a run of a handler leaves in the world: the calls it is expected
    to make, and one more clock reading if it is the clock handler. *)
Lemma invoke_world ep req w :
  snd (invoke db clock ep req w)
  = {| calls := calls w ++ endpoint_calls (ep, req);
       ticks := ticks w + (if is_clock (ep, req) then 1 else 0) |}.
Proof.
  unfold invoke.
  destruct ep as [| |[]]; cbn [endpoint_handler endpoint_calls is_clock fst].
  - cbn. destruct w as [cs n]. cbn. f_equal; [by rewrite app_nil_r|lia].
  - cbn. f_equal; [by rewrite app_nil_r|lia].
  - unfold get_hubs, db_call, log_call. destruct (then_catch _ _ _ _).
    cbn. f_equal. lia.
  - unfold get_hub_by_id, db_call, log_call. destruct (then_catch _ _ _ _).
    cbn. f_equal. lia.
  - unfold post_hubs, db_call, log_call. destruct (then_catch _ _ _ _).
    cbn. f_equal. lia.
  - unfold put_hub, db_call, log_call. destruct (then_catch _ _ _ _).
    cbn. f_equal. lia.
  - unfold delete_hub, db_call, log_call. destruct (then_catch _ _ _ _).
    cbn. f_equal. lia.
Qed.

(** The route table only ever runs one of the seven handlers, on a fresh
    [res]. *)
Lemma handle_invokes rq w :
  serve rq w = (None, w) \/
  exists ep req,
    serve rq w = (Some (fst (invoke db clock ep req w)),
                  snd (invoke db clock ep req w)).
Proof.
  unfold handle.
  destruct (lookup_route routes rq) as [[rt ps]|] eqn:E; [|by left].
  right. apply lookup_route_In in E. rewrite server_table in E.
  cbn [In] in E.
  destruct E as [<-|[<-|[<-|[<-|[<-|[<-|[<-|[]]]]]]]]; cbn [route_handler];
    [ exists Greeting | exists Clock | exists (Hub GetHubs)
    | exists (Hub GetHubById) | exists (Hub PostHubs) | exists (Hub PutHub)
    | exists (Hub DeleteHub) ];
    exists {| params := ps; body_of := payload rq |};
    unfold invoke; cbn [endpoint_handler];
    match goal with |- context [?h ?r fresh_res w] =>
      destruct (h r fresh_res w) end; reflexivity.
Qed.

(** X3. Whatever handlers are run and on whatever requests, each run of a
    hub handler makes exactly one collaborator call, [find()],
    [findById(id)], [add(body)], [update(id, body)] or [remove(id)] with
    [id] and [body] as the request object holds them, and the greeting and
    the clock handler make none: after any sequence of runs the collaborator
    has received exactly those calls, in the order of the runs. *)
Theorem invoke_all_calls (runs : list (Endpoint * Req)) (w : World) :
  calls (snd (invoke_all db clock runs w))
  = (calls w ++ flat_map endpoint_calls runs)%list.
Proof.
  revert w. induction runs as [|[ep req] runs IH]; intros w;
    cbn [invoke_all flat_map].
  - cbn. by rewrite app_nil_r.
  - pose proof (invoke_world ep req w) as H1.
    destruct (invoke db clock ep req w) as [r w1]. cbn [snd] in H1.
    pose proof (IH w1) as H2.
    destruct (invoke_all db clock runs w1) as [rs w2]. cbn [snd] in *.
    rewrite H2, H1. cbn [calls]. by rewrite <- app_assoc.
Qed.

(** X4. Of the seven handlers only the one of [/now] reads the clock, once
    per run: after any sequence of runs the number of clock readings has
    grown by the number of runs of that handler. *)
Theorem invoke_all_clock_reads (runs : list (Endpoint * Req)) (w : World) :
  ticks (snd (invoke_all db clock runs w))
  = (ticks w + length (List.filter is_clock runs))%nat.
Proof.
  revert w. induction runs as [|[ep req] runs IH]; intros w;
    cbn [invoke_all List.filter].
  - cbn. lia.
  - pose proof (invoke_world ep req w) as H1.
    destruct (invoke db clock ep req w) as [r w1]. cbn [snd] in H1.
    pose proof (IH w1) as H2.
    destruct (invoke_all db clock runs w1) as [rs w2]. cbn [snd] in *.
    rewrite H2, H1. cbn [ticks].
    destruct (is_clock (ep, req)); cbn; lia.
Qed.

(** X17. The handlers keep nothing from one request to the next: when the
    collaborator answers a call the same way whatever was called before,
    every handler other than the one of [/now] writes the same on a given
    request object whatever was served before. *)
Theorem no_state_between_invocations
  (ep : Endpoint) (req : Req) (w1 w2 : World) :
  (forall before1 before2 c, db before1 c = db before2 c) ->
  ep <> Clock ->
  fst (invoke db clock ep req w1) = fst (invoke db clock ep req w2).
Proof.
  intros Hdb Hep. unfold invoke.
  destruct ep as [| |[]]; [reflexivity|congruence| | | | |];
    cbn [endpoint_handler];
    unfold get_hubs, get_hub_by_id, post_hubs, put_hub, delete_hub, db_call;
    rewrite (Hdb (calls w1) (calls w2));
    destruct (then_catch _ _ _ _); reflexivity.
Qed.

End Coverage.

(** * Concrete runs of the further properties *)

Lemma at_most_one_known_status_witness :
  (length [ {| status := 201;
               body := JsonBody (JObject
                 [("sucess", JBool true); ("hub", hub_one)]) |} ] <= 1)%nat /\
  Forall (fun r => known_status (status r) = true)
    [ {| status := 201;
         body := JsonBody (JObject
           [("sucess", JBool true); ("hub", hub_one)]) |} ].
Proof.
  apply (at_most_one_known_status (db_const (Fulfilled hub_one)) clock_zero
           {| method := POST; path := ["hubs"]; payload := new_hub |}
           init_world).
  reflexivity.
Defined.

Lemma status_reflects_outcome_witness :
  let r := {| status := 404;
              body := JsonBody (JObject
                [("success", JBool false);
                 ("message",
                  JString "I cannot find the hub you are looking for")]) |} in
  let p := db_const (Fulfilled JNull) (calls init_world)
             (hub_call DeleteHub "1" JUndefined) in
  (status r = 500 <-> exists e, p = Rejected e) /\
  (status r = 404 <->
     id_addressed DeleteHub = true /\
     exists v, p = Fulfilled v /\ truthy v = false) /\
  (status r = 200 \/ status r = 201 \/ status r = 204 <->
     exists v, p = Fulfilled v /\
               (id_addressed DeleteHub = false \/ truthy v = true)).
Proof.
  intros r.
  apply (status_reflects_outcome (db_const (Fulfilled JNull)) clock_zero
           DeleteHub "1" JUndefined init_world r).
  reflexivity.
Defined.

Lemma body_ignored_witness :
  handle (db_const (Fulfilled hub_one)) clock_zero
    {| method := GET; path := ["hubs"; "1"]; payload := new_hub |} init_world
  = handle (db_const (Fulfilled hub_one)) clock_zero
      {| method := GET; path := ["hubs"; "1"]; payload := JUndefined |} init_world.
Proof.
  apply (body_ignored (db_const (Fulfilled hub_one)) clock_zero GET
           ["hubs"; "1"] new_hub JUndefined init_world).
  left. reflexivity.
Defined.


Lemma not_found_iff_falsy_witness :
  let v := JNumber (S754_zero true) in
  let r := {| status := 404;
              body := JsonBody (JObject
                [("success", JBool false);
                 ("message",
                  JString "I cannot find the hub you are looking for")]) |} in
  status r = 404 <->
  v = JUndefined \/ v = JNull \/ v = JBool false \/
  (exists s, v = JNumber (S754_zero s)) \/ v = JNumber S754_nan \/
  v = JString "".
Proof.
  intros v r.
  apply (not_found_iff_falsy (db_const (Fulfilled v)) clock_zero
           PutHub "1" new_hub init_world v r); reflexivity.
Defined.

Lemma now_body_reads_back_witness :
  exists s,
    fst (handle (db_const Pending) clock_forward
           {| method := GET; path := ["now"]; payload := JUndefined |}
           init_world)
    = Some [ {| status := 200; body := TextBody s |} ] /\
    Date.parse s = Some (clock_forward (ticks init_world)).
Proof.
  apply (now_body_reads_back (db_const Pending) clock_forward JUndefined
           init_world).
  unfold Date.is_time_value, Date.maxTime, clock_forward. cbn. lia.
Defined.

Lemma now_bodies_distinguish_readings_witness :
  let w1 := {| calls := []; ticks := 1 |} in
  fst (handle (db_const Pending) clock_forward
         {| method := GET; path := ["now"]; payload := JUndefined |} init_world)
  = fst (handle (db_const Pending) clock_forward
           {| method := GET; path := ["now"]; payload := JUndefined |} w1)
  <-> clock_forward (ticks init_world) = clock_forward (ticks w1).
Proof.
  intros w1.
  apply (now_bodies_distinguish_readings (db_const Pending) clock_forward
           JUndefined JUndefined init_world w1);
    unfold Date.is_time_value, Date.maxTime, clock_forward; cbn; lia.
Defined.

Lemma now_bodies_sort_by_time_witness :
  let w1 := {| calls := []; ticks := 1 |} in
  exists s1 s2,
    fst (handle (db_const Pending) clock_forward
           {| method := GET; path := ["now"]; payload := JUndefined |} init_world)
    = Some [ {| status := 200; body := TextBody s1 |} ] /\
    fst (handle (db_const Pending) clock_forward
           {| method := GET; path := ["now"]; payload := JUndefined |} w1)
    = Some [ {| status := 200; body := TextBody s2 |} ] /\
    String.compare s1 s2
    = (clock_forward (ticks init_world) ?= clock_forward (ticks w1)).
Proof.
  intros w1.
  apply (now_bodies_sort_by_time (db_const Pending) clock_forward
           JUndefined JUndefined init_world w1);
    unfold year0, year10000, clock_forward; cbn; lia.
Defined.

Lemma no_state_between_invocations_witness :
  let req := {| params := <["id" := "1"]> ∅; body_of := JUndefined |} in
  fst (invoke (db_const (Fulfilled hub_one)) clock_zero (Hub GetHubById) req
         init_world)
  = fst (invoke (db_const (Fulfilled hub_one)) clock_zero (Hub GetHubById) req
           {| calls := [remove (JString "1")]; ticks := 3 |}).
Proof.
  intros req.
  apply (no_state_between_invocations (db_const (Fulfilled hub_one)) clock_zero
           (Hub GetHubById) req init_world
           {| calls := [remove (JString "1")]; ticks := 3 |}).
  - intros before1 before2 c. reflexivity.
  - discriminate.
Defined.
